(** * confluence-to-markdown: a shallow embedding of [main.py]

    The batch job reads a list of Confluence page URLs, fetches every page
    over REST, resolves the author's display name through a cached second
    call, converts the body to Markdown and appends one formatted block per
    page to a timestamped file.

    Layout of this development:
    - [Text]     Python [str] values as sequences of Unicode code points;
    - [Py]       JSON / Python values, dictionaries, exceptions;
    - [PyLib]    the external routines the program calls ([urlparse],
                 [parse_qs], the regex classes, [markdownify]) as an interface;
    - [Env]      what the operating system and the network answer;
    - the program itself, function by function, in a state-and-exception monad;
    - [RefLib], [Scenario]  an instance of the interface and concrete runs;
    - the lemmas, the properties of the specification and their instances.

    How the program is read:
    - a [dict] the program shares between calls (the display-name cache) is
      an object on a heap, addressed by a number; the JSON values a response
      carries are immutable trees;
    - the network is an oracle indexed by the number of requests sent so
      far, so the same URL may be answered differently at different times;
      every request is logged in the world;
    - [response.json()] on a body that is not JSON raises an exception of
      the [RequestException] family (requests 2.27 and later);
    - JSON numbers are integers; [str()] of a list or dict is left to the
      interface;
    - [os.makedirs] and failures of the output file are not modelled: the
      output file can always be opened and written. *)

From Stdlib Require Import ZArith NArith List String Ascii Bool Lia.
From stdpp Require Import base option list gmap.
Import ListNotations.

Local Open Scope Z_scope.
Local Open Scope list_scope.

(* ===================================================================== *)
(** ** Text *)
(* ===================================================================== *)

(** A Python [str] is a sequence of code points. *)
Module Text.

Definition char := N.
Definition pystr := list N.

Fixpoint bytes_of (s : string) : list N :=
  match s with
  | EmptyString => []
  | String a r => N_of_ascii a :: bytes_of r
  end.

(** UTF-8 decoding of the bytes of a source literal (well-formed input;
    a truncated sequence ends the text). *)
Fixpoint utf8_decode (bs : list N) : pystr :=
  match bs with
  | [] => []
  | b :: r =>
    if (b <? 128)%N then b :: utf8_decode r
    else if (b <? 224)%N then
      match r with
      | b1 :: r1 => ((b - 192) * 64 + (b1 - 128))%N :: utf8_decode r1
      | _ => []
      end
    else if (b <? 240)%N then
      match r with
      | b1 :: b2 :: r2 =>
        ((b - 224) * 4096 + (b1 - 128) * 64 + (b2 - 128))%N :: utf8_decode r2
      | _ => []
      end
    else
      match r with
      | b1 :: b2 :: b3 :: r3 =>
        ((b - 240) * 262144 + (b1 - 128) * 4096 + (b2 - 128) * 64 + (b3 - 128))%N
          :: utf8_decode r3
      | _ => []
      end
  end.

(** [u "..."] is the Python literal ["..."]. *)
Definition u (s : string) : pystr := utf8_decode (bytes_of s).
Arguments u s%_string : simpl never.

Definition nl : pystr := [10%N].

Definition str_eqb (a b : pystr) : bool := bool_decide (a = b).

Definition is_empty (s : pystr) : bool :=
  match s with [] => true | _ => false end.

(** [s.startswith(p)], returning what follows the prefix. *)
Fixpoint strip_prefix (p s : pystr) : option pystr :=
  match p, s with
  | [], _ => Some s
  | a :: p', b :: s' => if (a =? b)%N then strip_prefix p' s' else None
  | _ :: _, [] => None
  end.

(** [p in s] for strings: [p] occurs as a contiguous run of [s]. *)
Fixpoint contains (p s : pystr) : bool :=
  match strip_prefix p s with
  | Some _ => true
  | None => match s with [] => false | _ :: s' => contains p s' end
  end.

Fixpoint take_while (f : char -> bool) (s : pystr) : pystr :=
  match s with
  | c :: r => if f c then c :: take_while f r else []
  | [] => []
  end.

Fixpoint drop_while (f : char -> bool) (s : pystr) : pystr :=
  match s with
  | c :: r => if f c then drop_while f r else s
  | [] => []
  end.

(** [s.strip()] for a given whitespace class. *)
Definition strip (isspace : char -> bool) (s : pystr) : pystr :=
  rev (drop_while isspace (rev (drop_while isspace s))).

(** [s.split(sep)] for a one-character separator. *)
Fixpoint split_on (sep : char) (s : pystr) : list pystr :=
  match s with
  | [] => [[]]
  | c :: r =>
    if (c =? sep)%N then [] :: split_on sep r
    else match split_on sep r with
         | l :: ls => (c :: l) :: ls
         | [] => [[c]]
         end
  end.

Fixpoint uint_chars (d : Decimal.uint) : pystr :=
  match d with
  | Decimal.Nil => []
  | Decimal.D0 r => 48%N :: uint_chars r
  | Decimal.D1 r => 49%N :: uint_chars r
  | Decimal.D2 r => 50%N :: uint_chars r
  | Decimal.D3 r => 51%N :: uint_chars r
  | Decimal.D4 r => 52%N :: uint_chars r
  | Decimal.D5 r => 53%N :: uint_chars r
  | Decimal.D6 r => 54%N :: uint_chars r
  | Decimal.D7 r => 55%N :: uint_chars r
  | Decimal.D8 r => 56%N :: uint_chars r
  | Decimal.D9 r => 57%N :: uint_chars r
  end.

(** [str(z)] for an integer. *)
Definition int_str (z : Z) : pystr :=
  match Z.to_int z with
  | Decimal.Pos d => uint_chars d
  | Decimal.Neg d => 45%N :: uint_chars d
  end.

End Text.
Import Text.

(* ===================================================================== *)
(** ** Python values *)
(* ===================================================================== *)

(** The values [response.json()] produces.  [JNull] is Python's [None];
    numbers are the integers (a JSON float has no counterpart here). *)
#[local] Set Warnings "-register-all".

Inductive json :=
| JNull
| JBool (b : bool)
| JNum (z : Z)
| JStr (s : pystr)
| JArr (items : list json)
| JObj (fields : list (pystr * json)).

(** Exceptions of [requests.exceptions], all below [RequestException]. *)
Inductive request_exception :=
| ConnectionError
| Timeout
| TooManyRedirects
| HTTPError (status : Z)
| InvalidJSON.

Inductive exn :=
| RequestException (e : request_exception)
| AttributeError
| TypeError
| ValueError
| IndexError
| OSError.

Inductive result (A : Type) :=
| Ok (a : A)
| Raise (e : exn).
Arguments Ok {A} a.
Arguments Raise {A} e.

Module Py.

(** [bool(v)]: the test of [if v:] and [not v]. *)
Definition truthy (v : json) : bool :=
  match v with
  | JNull => false
  | JBool b => b
  | JNum z => negb (z =? 0)
  | JStr s => negb (is_empty s)
  | JArr l => match l with [] => false | _ => true end
  | JObj kv => match kv with [] => false | _ => true end
  end.

(** An empty [{}]. *)
Definition empty_dict : json := JObj [].

Fixpoint assoc {V} (k : pystr) (kv : list (pystr * V)) : option V :=
  match kv with
  | [] => None
  | (k', v) :: r => if str_eqb k k' then Some v else assoc k r
  end.

(** [v.get(k, d)]: only a dict has [get]. *)
Definition get (v : json) (k : pystr) (d : json) : result json :=
  match v with
  | JObj kv => Ok (default d (assoc k kv))
  | _ => Raise AttributeError
  end.

(** Lists and dicts cannot be dictionary keys. *)
Definition hashable (v : json) : bool :=
  match v with
  | JArr _ | JObj _ => false
  | _ => true
  end.

(** [a == b] on hashable values; [True == 1] and [False == 0]. *)
Definition key_eqb (a b : json) : bool :=
  match a, b with
  | JNull, JNull => true
  | JStr s, JStr t => str_eqb s t
  | JBool x, JBool y => Bool.eqb x y
  | JNum x, JNum y => x =? y
  | JBool x, JNum y | JNum y, JBool x => (if x then 1 else 0) =? y
  | _, _ => false
  end.

(** A dictionary object whose keys are arbitrary hashable values. *)
Definition dict := list (json * json).

Fixpoint dict_find (k : json) (d : dict) : option json :=
  match d with
  | [] => None
  | (k', v) :: r => if key_eqb k k' then Some v else dict_find k r
  end.

(** [k in d] *)
Definition dict_contains (k : json) (d : dict) : result bool :=
  if hashable k then Ok (bool_decide (is_Some (dict_find k d)))
  else Raise TypeError.

(** [d[k] = v]: replaces the value of an equal key, else adds the item. *)
Fixpoint dict_store (k v : json) (d : dict) : dict :=
  match d with
  | [] => [(k, v)]
  | (k', v') :: r =>
    if key_eqb k k' then (k', v) :: r else (k', v') :: dict_store k v r
  end.

End Py.

(* ===================================================================== *)
(** ** External routines *)
(* ===================================================================== *)

(** The six-field result of [urllib.parse.urlparse]; the program reads four. *)
Record ParseResult := {
  scheme : pystr;
  netloc : pystr;
  path : pystr;
  query : pystr;
}.

(** Library code the program calls and does not define. *)
Class PyLib := {
  (** [urllib.parse.urlparse]; raises [ValueError] on some inputs. *)
  urlparse : pystr -> result ParseResult;
  (** [urllib.parse.parse_qs]: field name to its values, in order. *)
  parse_qs : pystr -> list (pystr * list pystr);
  (** the class [\d] of [re] *)
  isdigit : char -> bool;
  (** the characters [str.strip] removes *)
  isspace : char -> bool;
  (** [markdownify.markdownify(html, heading_style="ATX")] *)
  md : json -> result pystr;
  (** [str(v)] for a list or a dict *)
  container_str : json -> pystr;
}.

(** What the program relies on: [parse_qs] lists a field only with the
    values it found for it, so the list is never empty. *)
Class PyLibLaws (lib : PyLib) : Prop := {
  parse_qs_values :
    forall qs k vs, Py.assoc k (parse_qs qs) = Some vs -> vs <> [];
}.

(** [str(v)], as an f-string field formats it. *)
Definition py_str `{PyLib} (v : json) : pystr :=
  match v with
  | JNull => u "None"
  | JBool true => u "True"
  | JBool false => u "False"
  | JNum z => int_str z
  | JStr s => s
  | JArr _ | JObj _ => container_str v
  end.

(* ===================================================================== *)
(** ** The outside world *)
(* ===================================================================== *)

Record request := {
  req_url : pystr;
  req_headers : list (pystr * pystr);
  req_auth : option (pystr * pystr);
}.

(** An HTTP answer; [json_body] is [None] when the body is not JSON. *)
Record response := {
  status_code : Z;
  json_body : option json;
}.

Inductive net_result :=
| Failed (e : request_exception)
| Answered (r : response).

(** What [open("urls.txt")] finds; [FileLines] holds the lines the file
    iterator yields. *)
Inductive url_file :=
| FileNotFound
| FileUnreadable
| FileLines (lines : list pystr).

Record Env := {
  (** the answer to the [n]-th request of the run *)
  net : nat -> request -> net_result;
  (** [datetime.now(jst).strftime("%Y%m%d_%H%M%S")] *)
  timestamp_now : pystr;
  (** [os.getenv] after [load_dotenv()] *)
  getenv : pystr -> option pystr;
  urls_txt : url_file;
}.

(** [requests.Session] carries the credentials. *)
Record Session := {
  auth : option (pystr * pystr);
}.

(** Why a request was sent; kept in the log, invisible to the program. *)
Inductive purpose :=
| FetchPage
| LookupUser (account_id : json).

Record call := {
  call_purpose : purpose;
  call_request : request;
  call_result : net_result;
}.

(** A console line; the text of an exception is kept symbolic. *)
Inductive line :=
| Line (text : pystr)
| LineExn (text : pystr) (e : exn).

Record world := {
  (** requests sent so far, oldest first *)
  sent : list call;
  (** text files by path *)
  files : gmap pystr pystr;
  (** standard output, oldest first *)
  stdout : list line;
  (** dictionary objects by address *)
  heap : list Py.dict;
}.

(* ===================================================================== *)
(** ** The monad of the program: state and exceptions *)
(* ===================================================================== *)

(** A computation changes the world and either returns or raises; what it
    did before raising stays done. *)
Definition M (A : Type) : Type := world -> result A * world.

Definition ret {A} (a : A) : M A := fun w => (Ok a, w).

Definition bind {A B} (m : M A) (k : A -> M B) : M B :=
  fun w =>
    match m w with
    | (Ok a, w') => k a w'
    | (Raise e, w') => (Raise e, w')
    end.

Definition lift {A} (r : result A) : M A := fun w => (r, w).

(** [try: m  except <catches> as e: handler e] *)
Definition try_except {A} (m : M A) (catches : exn -> bool) (handler : exn -> M A) : M A :=
  fun w =>
    match m w with
    | (Ok a, w') => (Ok a, w')
    | (Raise e, w') => if catches e then handler e w' else (Raise e, w')
    end.

Declare Scope py_scope.
Delimit Scope py_scope with py.
Notation "'do' x <- m ; k" := (bind m (fun x => k))
  (at level 10, x name, m at level 100, k at level 200) : py_scope.
Notation "'run' m ; k" := (bind m (fun _ => k))
  (at level 10, m at level 100, k at level 200) : py_scope.
Local Open Scope py_scope.

(** [for x in xs: body x] *)
Fixpoint for_each {A} (xs : list A) (body : A -> M unit) : M unit :=
  match xs with
  | [] => ret tt
  | x :: rest => run body x; for_each rest body
  end.

Definition is_RequestException (e : exn) : bool :=
  match e with RequestException _ => true | _ => false end.

(** Every exception of the model derives from [Exception]. *)
Definition is_Exception (e : exn) : bool := true.

Definition with_sent (w : world) (s : list call) : world :=
  {| sent := s; files := files w; stdout := stdout w; heap := heap w |}.
Definition with_files (w : world) (f : gmap pystr pystr) : world :=
  {| sent := sent w; files := f; stdout := stdout w; heap := heap w |}.
Definition with_stdout (w : world) (o : list line) : world :=
  {| sent := sent w; files := files w; stdout := o; heap := heap w |}.
Definition with_heap (w : world) (h : list Py.dict) : world :=
  {| sent := sent w; files := files w; stdout := stdout w; heap := h |}.

Definition print (s : pystr) : M unit :=
  fun w => (Ok tt, with_stdout w (stdout w ++ [Line s])).

(** [print(f"{s}{e}")] for an exception [e]. *)
Definition print_exn (s : pystr) (e : exn) : M unit :=
  fun w => (Ok tt, with_stdout w (stdout w ++ [LineExn s e])).

(** [open(p, 'a')]: the file exists afterwards. *)
Definition open_append (p : pystr) : M unit :=
  fun w => (Ok tt, with_files w (<[p := default [] (files w !! p)]> (files w))).

(** [f.write(s)] on a file opened for appending. *)
Definition file_write (p s : pystr) : M unit :=
  fun w => (Ok tt, with_files w (<[p := default [] (files w !! p) ++ s]> (files w))).

(** [{}]: a new dictionary object; its address is returned. *)
Definition new_dict : M nat :=
  fun w => (Ok (length (heap w)), with_heap w (heap w ++ [[]])).

Definition dict_at (l : nat) (w : world) : Py.dict := default [] (heap w !! l).

(** [k in d] *)
Definition dict_contains (l : nat) (k : json) : M bool :=
  fun w => (Py.dict_contains k (dict_at l w), w).

(** [d[k]] for a key that is present. *)
Definition dict_getitem (l : nat) (k : json) : M json :=
  fun w => (Ok (default JNull (Py.dict_find k (dict_at l w))), w).

(** [d[k] = v] *)
Definition dict_setitem (l : nat) (k v : json) : M unit :=
  fun w => (Ok tt, with_heap w (<[l := Py.dict_store k v (dict_at l w)]> (heap w))).

(** [response.raise_for_status()] *)
Definition raise_for_status (r : response) : M unit :=
  if (400 <=? status_code r) && (status_code r <? 600)
  then lift (Raise (RequestException (HTTPError (status_code r))))
  else ret tt.

(** [response.json()] *)
Definition response_json (r : response) : M json :=
  match json_body r with
  | Some j => ret j
  | None => lift (Raise (RequestException InvalidJSON))
  end.

Section Program.

Context {lib : PyLib} (env : Env).

(** [session.get(url, headers=headers)] *)
Definition session_get (session : Session) (why : purpose)
    (url : pystr) (headers : list (pystr * pystr)) : M response :=
  fun w =>
    let rq := {| req_url := url; req_headers := headers; req_auth := auth session |} in
    let answer := net env (length (sent w)) rq in
    let w' := with_sent w (sent w ++
                [{| call_purpose := why; call_request := rq; call_result := answer |}]) in
    match answer with
    | Failed e => (Raise (RequestException e), w')
    | Answered r => (Ok r, w')
    end.

Definition default_expansions : pystr :=
  u "body.storage,version,ancestors,history.createdBy,space".

(** [get_page]: the page as JSON, or [None] ([JNull]) when the request
    fails. *)
Definition get_page (page_id base_url : pystr) (session : Session)
    (expansions : option pystr) : M json :=
  let expansions := default default_expansions expansions in
  let url := base_url ++ u "/rest/api/content/" ++ page_id ++ u "?expand=" ++ expansions in
  let headers := [(u "Accept", u "application/json")] in
  try_except
    (do response <- session_get session FetchPage url headers;
     run raise_for_status response;
     response_json response)
    is_RequestException
    (fun e => run print_exn (u "[ERROR] ページ情報取得失敗: ") e; ret JNull).

(** [extract_data_from_html] *)
Definition extract_data_from_html (html_content : json) : M pystr :=
  lift (md html_content).

Definition unknown_creator : pystr := u "不明な作成者".

(** [get_display_name]; [cache] is the address of the dictionary. *)
Definition get_display_name (account_id : json) (session : Session)
    (base_url : pystr) (cache : nat) : M json :=
  if negb (Py.truthy account_id) then ret (JStr unknown_creator)
  else
    do hit <- dict_contains cache account_id;
    if hit : bool then dict_getitem cache account_id
    else
      let url := base_url ++ u "/rest/api/user?accountId=" ++ py_str account_id in
      do response <- session_get session (LookupUser account_id) url [];
      if status_code response =? 200 then
        do body <- response_json response;
        do display_name <- lift (Py.get body (u "displayName") account_id);
        run dict_setitem cache account_id display_name;
        ret display_name
      else
        run print (u "⚠️ ユーザー情報取得失敗: " ++ py_str account_id ++ u " ("
                   ++ int_str (status_code response) ++ u ")");
        ret account_id.

(** [re.search(r'/pages/(\d+)', s)]: group 1 of the leftmost match. *)
Fixpoint search_pages_digits (s : pystr) : option pystr :=
  match s with
  | [] => None
  | _ :: rest =>
    match strip_prefix (u "/pages/") s with
    | Some after =>
      match take_while isdigit after with
      | [] => search_pages_digits rest
      | digits => Some digits
      end
    | None => search_pages_digits rest
    end
  end.

(** [query_params.get('pageId', [None])[0]] *)
Definition first_pageId (query_params : list (pystr * list pystr)) : result (option pystr) :=
  match Py.assoc (u "pageId") query_params with
  | None => Ok None
  | Some [] => Raise IndexError
  | Some (v :: _) => Ok (Some v)
  end.

(** The first shape, [/pages/viewpage.action?pageId=...]: the id the
    [if 'viewpage.action' in parsed_url.path] block returns, if it returns. *)
Definition viewpage_page_id (parsed_url : ParseResult) : result (option pystr) :=
  if contains (u "viewpage.action") (path parsed_url) then
    let query_params := parse_qs (query parsed_url) in
    match first_pageId query_params with
    | Ok (Some (c :: id)) => Ok (Some (c :: id))
    | Ok _ => Ok None
    | Raise e => Raise e
    end
  else Ok None.

(** [parse_confluence_url]: [(base_url, page_id)], or [None] for the
    pair [(None, None)]. *)
Definition parse_confluence_url (url : pystr) : M (option (pystr * pystr)) :=
  try_except
    (do parsed_url <- lift (urlparse url);
     let base_url := scheme parsed_url ++ u "://" ++ netloc parsed_url ++ u "/wiki" in
     do from_query <- lift (viewpage_page_id parsed_url);
     match from_query with
     | Some page_id => ret (Some (base_url, page_id))
     | None =>
       match search_pages_digits (path parsed_url) with
       | Some page_id => ret (Some (base_url, page_id))
       | None =>
         run print (u "[ERROR] URLからページIDを抽出できませんでした: " ++ url);
         ret None
       end
     end)
    is_Exception
    (fun e =>
       run print_exn (u "[ERROR] URLの解析中にエラーが発生しました: " ++ url ++ u ", ") e;
       ret None).

Definition save_directory : pystr := u "./outputs".

(** [os.path.join(save_directory, f"confluence_data_{timestamp}.md")] *)
Definition markdown_file_path (timestamp : pystr) : pystr :=
  save_directory ++ u "/" ++ u "confluence_data_" ++ timestamp ++ u ".md".

(** The text built in [markdown_content], one [+=] per line. *)
Definition markdown_content
    (page_title page_link space_name creator_display_name last_updated : json)
    (text_content : pystr) : pystr :=
  let markdown_content := u "# " ++ py_str page_title ++ nl in
  let markdown_content := markdown_content ++ u "URL: " ++ py_str page_link ++ nl in
  let markdown_content := markdown_content ++ u "スペース: " ++ py_str space_name ++ nl in
  let markdown_content :=
    markdown_content ++ u "作成者: " ++ py_str creator_display_name ++ nl in
  let markdown_content :=
    markdown_content ++ u "最終更新日: " ++ py_str last_updated ++ nl ++ nl in
  markdown_content ++ text_content ++ nl ++ nl.

(** The body of the [for url in page_urls] loop; an early [ret tt] is
    the [continue]. *)
Definition process_url (session : Session) (md_file : pystr) (user_cache : nat)
    (url : pystr) : M unit :=
  do parsed <- parse_confluence_url url;
  match parsed with
  | None => ret tt
  | Some (base_url, page_id) =>
    if is_empty page_id || is_empty base_url then ret tt
    else
      do page <- get_page page_id base_url session None;
      if Py.truthy page then
        do body <- lift (Py.get page (u "body") Py.empty_dict);
        do storage <- lift (Py.get body (u "storage") Py.empty_dict);
        do page_contents <- lift (Py.get storage (u "value") (JStr []));
        do text_content <- extract_data_from_html page_contents;

        do history <- lift (Py.get page (u "history") Py.empty_dict);
        do creator <- lift (Py.get history (u "createdBy") Py.empty_dict);
        do creator_account_id <- lift (Py.get creator (u "accountId") JNull);
        do creator_display_name <-
          get_display_name creator_account_id session base_url user_cache;

        do page_title <- lift (Py.get page (u "title") (JStr (u "No Title")));
        do space_info <- lift (Py.get page (u "space") Py.empty_dict);
        do space_key <- lift (Py.get space_info (u "key") JNull);
        do space_name <- lift (Py.get space_info (u "name") space_key);

        do links <- lift (Py.get page (u "_links") Py.empty_dict);
        do page_link <- lift (Py.get links (u "webui") (JStr url));
        do version <- lift (Py.get page (u "version") Py.empty_dict);
        do last_updated <- lift (Py.get version (u "friendlyWhen") (JStr (u "N/A")));

        let content := markdown_content page_title page_link space_name
                         creator_display_name last_updated text_content in
        run file_write md_file content;
        run print (u "-----------------------");
        run print content;
        print (u "Markdownファイルに追記しました (ページ: " ++ py_str page_title
               ++ u ")" ++ nl ++ nl)
      else
        print (u "ページを取得できませんでした: " ++ url)
  end.

(** [process_pages_from_urls] *)
Definition process_pages_from_urls (page_urls : list pystr) (session : Session) : M unit :=
  let timestamp := timestamp_now env in
  let md_path := markdown_file_path timestamp in
  do user_cache <- new_dict;
  run open_append md_path;
  for_each page_urls (process_url session md_path user_cache).

Definition missing (v : option pystr) : bool :=
  match v with
  | None | Some [] => true
  | Some _ => false
  end.

Definition url_file_path : pystr := u "urls.txt".

(** [main] *)
Definition main : M unit :=
  let api_token := getenv env (u "CONFLUENCE_API_TOKEN") in
  let user_name := getenv env (u "CONFLUENCE_USER_NAME") in
  if missing api_token || missing user_name then
    print (u "[ERROR] .envファイルにCONFLUENCE_API_TOKENとCONFLUENCE_USER_NAMEを設定してください。")
  else
    let session := {| auth := Some (default [] user_name, default [] api_token) |} in
    match urls_txt env with
    | FileNotFound =>
      run print (u "[ERROR] URLファイルが見つかりません: " ++ url_file_path);
      print (u "'" ++ url_file_path ++ u "'を作成し、1行に1つのURLを記述してください。")
    | FileUnreadable => lift (Raise OSError)
    | FileLines lines =>
      let page_urls :=
        map (strip isspace) (List.filter (fun l => negb (is_empty (strip isspace l))) lines) in
      match page_urls with
      | [] =>
        print (u "読み取るConfluenceページのURLが指定されていません。'" ++ url_file_path
               ++ u "'にURLを記述してください。")
      | _ => process_pages_from_urls page_urls session
      end
    end.

End Program.

(* ===================================================================== *)
(** ** A reference instance of the library interface *)
(* ===================================================================== *)

(** The routines of [PyLib] on plain ASCII input, enough to run the program
    on concrete URLs: no percent-decoding, no [;params], no IPv6 literal. *)
Module RefLib.

Definition in_range (lo hi : N) (c : char) : bool := ((lo <=? c) && (c <=? hi))%N.

Definition ascii_digit : char -> bool := in_range 48 57.
Definition ascii_alpha (c : char) : bool := in_range 65 90 c || in_range 97 122 c.
Definition ascii_space (c : char) : bool := in_range 9 13 c || in_range 28 32 c.

(** the characters allowed in a scheme: letters, digits, [+], [-], [.] *)
Definition scheme_char (c : char) : bool :=
  ascii_alpha c || ascii_digit c || (c =? 43)%N || (c =? 45)%N || (c =? 46)%N.

Definition lower (c : char) : char := if in_range 65 90 c then (c + 32)%N else c.

(** [s] cut before the first character satisfying [f]. *)
Fixpoint break_at (f : char -> bool) (s : pystr) : pystr * pystr :=
  match s with
  | [] => ([], [])
  | c :: r => if f c then ([], s) else let '(a, b) := break_at f r in (c :: a, b)
  end.

Definition is_char (x : N) (c : char) : bool := (c =? x)%N.

Definition split_scheme (url : pystr) : pystr * pystr :=
  match break_at (is_char 58) url with
  | (c :: pre, _ :: rest) =>
    if ascii_alpha c && forallb scheme_char (c :: pre)
    then (map lower (c :: pre), rest) else ([], url)
  | _ => ([], url)
  end.

Definition split_netloc (url : pystr) : pystr * pystr :=
  match url with
  | 47%N :: 47%N :: r => break_at (fun c => is_char 47 c || is_char 63 c || is_char 35 c) r
  | _ => ([], url)
  end.

Definition urlparse_ascii (url : pystr) : result ParseResult :=
  let '(scheme, url) := split_scheme url in
  let '(netloc, url) := split_netloc url in
  let '(url, _) := break_at (is_char 35) url in
  let '(path, q) := break_at (is_char 63) url in
  Ok {| scheme := scheme; netloc := netloc; path := path; query := tail q |}.

Fixpoint add_value (k v : pystr) (d : list (pystr * list pystr)) : list (pystr * list pystr) :=
  match d with
  | [] => [(k, [v])]
  | (k', vs) :: r => if str_eqb k k' then (k', vs ++ [v]) :: r else (k', vs) :: add_value k v r
  end.

Definition parse_qs_ascii (qs : pystr) : list (pystr * list pystr) :=
  fold_left
    (fun d field =>
       let '(name, v) := break_at (is_char 61) field in
       match tail v with
       | [] => d
       | value => add_value name value d
       end)
    (split_on 38%N qs) [].

(** A stand-in for the converter: text passes through unchanged. *)
Definition md_plain (html : json) : result pystr :=
  match html with
  | JStr s => Ok s
  | _ => Raise TypeError
  end.

#[export] Instance lib : PyLib := {|
  urlparse := urlparse_ascii;
  parse_qs := parse_qs_ascii;
  isdigit := ascii_digit;
  isspace := ascii_space;
  md := md_plain;
  container_str := fun _ => u "{...}";
|}.

End RefLib.

(* ===================================================================== *)
(** ** Vocabulary of the properties *)
(* ===================================================================== *)

(** Names for the requests, log entries, console lines and worlds the
    properties speak about. *)
Section Vocabulary.

Context {lib : PyLib} (env : Env).

(** The request [get_display_name] sends for an account id. *)
Definition user_lookup (session : Session) (base_url : pystr) (account_id : json)
  : request :=
  {| req_url := base_url ++ u "/rest/api/user?accountId=" ++ py_str account_id;
     req_headers := [];
     req_auth := auth session |}.

(** The log entry of that request. *)
Definition lookup_call (session : Session) (base_url : pystr) (account_id : json)
    (answer : net_result) : call :=
  {| call_purpose := LookupUser account_id;
     call_request := user_lookup session base_url account_id;
     call_result := answer |}.

(** The line [get_display_name] prints when the lookup is refused. *)
Definition lookup_warning (account_id : json) (r : response) : line :=
  Line (u "⚠️ ユーザー情報取得失敗: " ++ py_str account_id ++ u " ("
        ++ int_str (status_code r) ++ u ")").

(** [base_url] as [parse_confluence_url] builds it. *)
Definition base_url_of (p : ParseResult) : pystr :=
  scheme p ++ u "://" ++ netloc p ++ u "/wiki".

Definition no_id_message (url : pystr) : line :=
  Line (u "[ERROR] URLからページIDを抽出できませんでした: " ++ url).

Definition parse_error_message (url : pystr) (e : exn) : line :=
  LineExn (u "[ERROR] URLの解析中にエラーが発生しました: " ++ url ++ u ", ") e.

Definition say (l : line) (w : world) : world := with_stdout w (stdout w ++ [l]).

(** The request [get_page] sends. *)
Definition page_request (session : Session) (base_url page_id : pystr) : request :=
  {| req_url := base_url ++ u "/rest/api/content/" ++ page_id ++ u "?expand="
                ++ default_expansions;
     req_headers := [(u "Accept", u "application/json")];
     req_auth := auth session |}.

Definition fetch_call (session : Session) (base_url page_id : pystr) (answer : net_result)
  : call :=
  {| call_purpose := FetchPage;
     call_request := page_request session base_url page_id;
     call_result := answer |}.

Definition fetch_error_message (e : request_exception) : line :=
  LineExn (u "[ERROR] ページ情報取得失敗: ") (RequestException e).

(** What [process_url] reads from a fetched page: the results of its
    [.get] chains, with their defaults. *)
Record page_view := {
  html : json;
  account_id : json;
  title : json;
  space_name : json;
  link : json;
  last_updated : json;
}.

Definition and_then {A B} (r : result A) (k : A -> result B) : result B :=
  match r with
  | Ok a => k a
  | Raise e => Raise e
  end.

(** All the [.get] chains of the loop body; [Raise AttributeError] when
    one of them meets a value that is not a dict. *)
Definition view_page (page : json) (url : pystr) : result page_view :=
  and_then (Py.get page (u "body") Py.empty_dict) (fun body =>
  and_then (Py.get body (u "storage") Py.empty_dict) (fun storage =>
  and_then (Py.get storage (u "value") (JStr [])) (fun page_contents =>
  and_then (Py.get page (u "history") Py.empty_dict) (fun history =>
  and_then (Py.get history (u "createdBy") Py.empty_dict) (fun creator =>
  and_then (Py.get creator (u "accountId") JNull) (fun creator_account_id =>
  and_then (Py.get page (u "title") (JStr (u "No Title"))) (fun page_title =>
  and_then (Py.get page (u "space") Py.empty_dict) (fun space_info =>
  and_then (Py.get space_info (u "key") JNull) (fun space_key =>
  and_then (Py.get space_info (u "name") space_key) (fun space_name =>
  and_then (Py.get page (u "_links") Py.empty_dict) (fun links =>
  and_then (Py.get links (u "webui") (JStr url)) (fun page_link =>
  and_then (Py.get page (u "version") Py.empty_dict) (fun version =>
  and_then (Py.get version (u "friendlyWhen") (JStr (u "N/A"))) (fun last_updated =>
  Ok {| html := page_contents; account_id := creator_account_id; title := page_title;
        space_name := space_name; link := page_link; last_updated := last_updated |}
  )))))))))))))).

(** [obj[k]] when [obj] is a dict that has the key. *)
Definition member (k : pystr) (obj : json) : option json :=
  match obj with
  | JObj fields => Py.assoc k fields
  | _ => None
  end.

(** [page[k1][k2]], when both are there. *)
Definition member2 (k1 k2 : pystr) (page : json) : option json :=
  match member k1 page with
  | Some inner => member k2 inner
  | None => None
  end.

(** Lines, each ended by a newline. *)
Definition join_lines (ls : list pystr) : pystr := concat (map (fun l => l ++ nl) ls).

(** The block of a page, as the lines of the file. *)
Definition block_lines (v : page_view) (author : json) (text : pystr) : list pystr :=
  [ u "# " ++ py_str (title v);
    u "URL: " ++ py_str (link v);
    u "スペース: " ++ py_str (space_name v);
    u "作成者: " ++ py_str author;
    u "最終更新日: " ++ py_str (last_updated v);
    [];
    text;
    [] ].

Definition appended_notice (page_title : json) : line :=
  Line (u "Markdownファイルに追記しました (ページ: " ++ py_str page_title ++ u ")" ++ nl ++ nl).

Definition not_fetched_notice (url : pystr) : line :=
  Line (u "ページを取得できませんでした: " ++ url).

Definition append_text (p s : pystr) (w : world) : world :=
  with_files w (<[p := default [] (files w !! p) ++ s]> (files w)).

(** The world after a page has been written: the block in the file,
    three lines on the console. *)
Definition written (md_file : pystr) (v : page_view) (author : json) (text : pystr)
    (w : world) : world :=
  let content := join_lines (block_lines v author text) in
  say (appended_notice (title v))
    (say (Line content)
      (say (Line (u "-----------------------"))
        (append_text md_file content w))).

(** The file of the run. *)
Definition output_path : pystr := markdown_file_path (timestamp_now env).

(** The world when the loop starts: a new empty cache, the file open. *)
Definition batch_start (w : world) : world :=
  with_files (with_heap w (heap w ++ [[]]))
    (<[output_path := default [] (files w !! output_path)]> (files w)).

(** The page of [url] is fetched, read and formatted into [block]. *)
Definition page_renders (session : Session) (cache : nat) (url : pystr) (w : world)
    (block : pystr) : Prop :=
  exists base_url page_id page w1 v text name w2,
    fst (parse_confluence_url url w) = Ok (Some (base_url, page_id)) /\
    get_page env page_id base_url session None w = (Ok page, w1) /\
    Py.truthy page = true /\
    view_page page url = Ok v /\
    md (html v) = Ok text /\
    get_display_name env (account_id v) session base_url cache w1 = (Ok name, w2) /\
    block = join_lines (block_lines v name text).

(** The URL is well formed and [get_page] returns [None] for it. *)
Definition page_fetch_fails (session : Session) (url : pystr) (w : world) : Prop :=
  exists base_url page_id w1,
    fst (parse_confluence_url url w) = Ok (Some (base_url, page_id)) /\
    get_page env page_id base_url session None w = (Ok JNull, w1).

(** [keeps I E m]: started in a world satisfying [I], the computation [m]
    ends in a world satisfying [I] when it returns and [E] when it raises. *)
Definition keeps {A} (I E : world -> Prop) (m : M A) : Prop :=
  forall w, I w ->
    match m w with
    | (Ok _, w') => I w'
    | (Raise _, w') => E w'
    end.

(** A computation that changes neither the log nor the dictionaries keeps
    whatever depends on these two only. *)
Definition log_and_heap_only (I : world -> Prop) : Prop :=
  forall w w', sent w' = sent w -> heap w' = heap w -> I w -> I w'.

Definition answered_200 (c : call) : bool :=
  match call_result c with
  | Answered r => status_code r =? 200
  | Failed _ => false
  end.

(** The call is a user lookup for an id equal to [a]. *)
Definition looks_up (a : json) (c : call) : bool :=
  match call_purpose c with
  | LookupUser a' => Py.key_eqb a a'
  | FetchPage => false
  end.

(** How many lookups of [a] in the log were answered with status 200. *)
Definition lookups_200 (a : json) (log : list call) : nat :=
  length (List.filter (fun c => looks_up a c && answered_200 c) log).

(** Every id looked up with success since the log was [old] is in the
    cache, and was looked up with success once. *)
Definition cache_inv (old : list call) (cache : nat) (w : world) : Prop :=
  (cache < length (heap w))%nat /\
  exists new, sent w = old ++ new /\
    forall a, (lookups_200 a new <= 1)%nat /\
              ((1 <= lookups_200 a new)%nat ->
               is_Some (Py.dict_find a (dict_at cache w))).

Definition once (old : list call) (w : world) : Prop :=
  exists new, sent w = old ++ new /\ forall a, (lookups_200 a new <= 1)%nat.

(** [true] when the rest is empty or starts with a character outside [f]. *)
Definition stops (f : char -> bool) (rest : pystr) : bool :=
  match rest with
  | [] => true
  | c :: _ => negb (f c)
  end.

(** A match of [/pages/\d] begins at the head of [s]. *)
Definition pages_digit_here (s : pystr) : bool :=
  match strip_prefix (u "/pages/") s with
  | Some (c :: _) => isdigit c
  | _ => false
  end.

Definition credentials_message : line :=
  Line (u "[ERROR] .envファイルにCONFLUENCE_API_TOKENとCONFLUENCE_USER_NAMEを設定してください。").

Definition file_missing_messages : list line :=
  [ Line (u "[ERROR] URLファイルが見つかりません: " ++ url_file_path);
    Line (u "'" ++ url_file_path ++ u "'を作成し、1行に1つのURLを記述してください。") ].

Definition no_urls_message : line :=
  Line (u "読み取るConfluenceページのURLが指定されていません。'" ++ url_file_path
        ++ u "'にURLを記述してください。").

Definition blank (l : pystr) : bool := is_empty (strip isspace l).

(** The URLs [main] reads from the lines of the file. *)
Definition urls_of (lines : list pystr) : list pystr :=
  map (strip isspace) (List.filter (fun l => negb (blank l)) lines).

(** The credentials, both present. *)
Definition credentials : option (pystr * pystr) :=
  match getenv env (u "CONFLUENCE_USER_NAME"), getenv env (u "CONFLUENCE_API_TOKEN") with
  | Some (c :: user_name), Some (d :: api_token) => Some (c :: user_name, d :: api_token)
  | _, _ => None
  end.

(** The run stops on its configuration. *)
Definition configuration_error : Prop :=
  missing (getenv env (u "CONFLUENCE_API_TOKEN")) = true \/
  missing (getenv env (u "CONFLUENCE_USER_NAME")) = true \/
  urls_txt env = FileNotFound \/
  exists lines, urls_txt env = FileLines lines /\ forallb blank lines = true.

End Vocabulary.

(* ===================================================================== *)
(** ** Concrete runs *)
(* ===================================================================== *)

Module Scenario.

Definition session : Session := {| auth := Some (u "bot@example.com", u "token") |}.

Definition wiki : pystr := u "https://example.atlassian.net/wiki".

(** Nothing sent, nothing written; dictionary 0 is the default [cache={}]
    of [get_display_name]. *)
Definition start : world := {| sent := []; files := ∅; stdout := []; heap := [[]] |}.

Definition answer (status : Z) (body : json) : net_result :=
  Answered {| status_code := status; json_body := Some body |}.

(** A server that answers by URL, the same at every time; an unknown URL
    does not connect. *)
Definition server (routes : list (pystr * net_result)) : nat -> request -> net_result :=
  fun _ rq => default (Failed ConnectionError) (Py.assoc (req_url rq) routes).

Definition user_url (id : pystr) : pystr := wiki ++ u "/rest/api/user?accountId=" ++ id.

Definition content_url (id : pystr) : pystr :=
  wiki ++ u "/rest/api/content/" ++ id ++ u "?expand=" ++ default_expansions.

Definition jane : pystr := u "5b10ac8d82e05b22cc7d4ef5".

Definition spec_page : json :=
  JObj [ (u "title", JStr (u "Spec"));
         (u "space", JObj [(u "key", JStr (u "ENG")); (u "name", JStr (u "Engineering"))]);
         (u "body", JObj [(u "storage", JObj [(u "value", JStr (u "<h1>Hi</h1>"))])]);
         (u "history", JObj [(u "createdBy", JObj [(u "accountId", JStr jane)])]);
         (u "version", JObj [(u "friendlyWhen", JStr (u "2 days ago"))]);
         (u "_links", JObj [(u "webui", JStr (u "/spaces/ENG/pages/101/Spec"))]) ].

(** A page with neither [_links] nor [space.name]. *)
Definition bare_page : json :=
  JObj [ (u "title", JStr (u "Notes"));
         (u "space", JObj [(u "key", JStr (u "ENG"))]);
         (u "history", JObj [(u "createdBy", JObj [(u "accountId", JStr jane)])]) ].

Definition jane_doe : json := JObj [(u "displayName", JStr (u "Jane Doe"))].

Definition not_found : json := JObj [(u "message", JStr (u "not found"))].

Definition url_101 : pystr := u "https://example.atlassian.net/wiki/spaces/ENG/pages/101/Spec".
Definition url_102 : pystr := u "https://example.atlassian.net/wiki/spaces/ENG/pages/102/Gone".
Definition url_103 : pystr := u "https://example.atlassian.net/wiki/spaces/ENG/pages/103/Notes".
Definition url_104 : pystr := u "https://example.atlassian.net/wiki/spaces/ENG/pages/104".

Definition run_of (routes : list (pystr * net_result)) (lines : url_file)
    (token : option pystr) : Env :=
  {| net := server routes;
     timestamp_now := u "20240101_090000";
     getenv := fun k => if str_eqb k (u "CONFLUENCE_API_TOKEN") then token
                        else Some (u "bot@example.com");
     urls_txt := lines |}.

(** Pages 101 and 103 exist, 102 does not; the user is known. *)
Definition friendly : Env :=
  run_of [ (content_url (u "101"), answer 200 spec_page);
           (content_url (u "102"), answer 404 not_found);
           (content_url (u "103"), answer 200 bare_page);
           (content_url (u "104"), answer 200 (JObj [(u "id", JStr (u "104"))]));
           (user_url jane, answer 200 jane_doe) ]
         (FileLines [url_101; url_102; url_103]) (Some (u "token")).

(** The page exists, the user lookup is refused. *)
Definition grumpy : Env :=
  run_of [ (content_url (u "103"), answer 200 bare_page);
           (user_url jane, answer 404 not_found) ]
         (FileLines [url_103]) (Some (u "token")).

(** No API token in the environment. *)
Definition no_token : Env := run_of [] (FileLines [url_101]) None.

Definition out_file : pystr := u "./outputs/confluence_data_20240101_090000.md".

Definition spec_view : page_view :=
  {| html := JStr (u "<h1>Hi</h1>");
     account_id := JStr jane;
     title := JStr (u "Spec");
     space_name := JStr (u "Engineering");
     link := JStr (u "/spaces/ENG/pages/101/Spec");
     last_updated := JStr (u "2 days ago") |}.

Definition bare_view : page_view :=
  {| html := JStr [];
     account_id := JStr jane;
     title := JStr (u "Notes");
     space_name := JStr (u "ENG");
     link := JStr url_103;
     last_updated := JStr (u "N/A") |}.

End Scenario.

(* ===================================================================== *)
(** ** Further vocabulary: edge behaviour and whole runs *)
(* ===================================================================== *)

Section Edges.

Context {lib : PyLib} (env : Env).

(** What [get_page] makes of an answer: the body of a response that
    [raise_for_status] lets through, [None] otherwise. *)
Definition page_of_answer (a : net_result) : json :=
  match a with
  | Failed _ => JNull
  | Answered r =>
    if (400 <=? status_code r) && (status_code r <? 600) then JNull
    else default JNull (json_body r)
  end.

Definition is_object (v : json) : bool :=
  match v with
  | JObj _ => true
  | _ => false
  end.

Definition no_newline (s : pystr) : bool := forallb (fun c => negb (c =? 10)%N) s.

(** [hoare P m Q E]: from a world in [P], [m] ends in [Q] when it returns
    and in [E] when it raises. *)
Definition hoare {A} (P : world -> Prop) (m : M A) (Q E : world -> Prop) : Prop :=
  forall w, P w ->
    match m w with
    | (Ok _, w') => Q w'
    | (Raise _, w') => E w'
    end.

(** The request carries the credentials of the session. *)
Definition authenticated (session : Session) (c : call) : Prop :=
  req_auth (call_request c) = auth session.

(** The log has grown from [old] by at most [n] requests, all with the
    credentials of the session. *)
Definition sent_at_most (session : Session) (old : list call) (n : nat) (w : world) : Prop :=
  exists new, sent w = old ++ new /\ (length new <= n)%nat /\
              Forall (authenticated session) new.

(** The file at [p] holds [content] followed by something, and every other
    file is as in [before]. *)
Definition appended_to (p content : pystr) (before : gmap pystr pystr) (w : world) : Prop :=
  exists suffix, files w = <[p := content ++ suffix]> before.

(** The dictionaries of [before] are all there, unchanged, and one more. *)
Definition one_new_dict (before : list Py.dict) (w : world) : Prop :=
  length (heap w) = S (length before) /\
  forall l, (l < length before)%nat -> heap w !! l = before !! l.

(** [run_blocks urls w blocks]: how the loop goes through [urls] from the
    world [w], each URL either formatted into the next block or skipped
    (rejected by the parser, or not fetched). *)
Inductive run_blocks (session : Session) (md_file : pystr) (cache : nat)
  : list pystr -> world -> list pystr -> Prop :=
| blocks_done w : run_blocks session md_file cache [] w []
| blocks_rendered url rest w block blocks :
    page_renders env session cache url w block ->
    run_blocks session md_file cache rest
      (snd (process_url env session md_file cache url w)) blocks ->
    run_blocks session md_file cache (url :: rest) w (block :: blocks)
| blocks_skipped url rest w blocks :
    fst (parse_confluence_url url w) = Ok None \/ page_fetch_fails env session url w ->
    run_blocks session md_file cache rest
      (snd (process_url env session md_file cache url w)) blocks ->
    run_blocks session md_file cache (url :: rest) w blocks.

End Edges.

(** More concrete runs. *)
Module Edge.

Import Scenario.

Definition url_105 : pystr := u "https://example.atlassian.net/wiki/spaces/ENG/pages/105/Empty".
Definition url_106 : pystr := u "https://example.atlassian.net/wiki/spaces/ENG/pages/106/List".
Definition url_none : pystr := u "https://example.atlassian.net/wiki/spaces/ENG/overview".

(** Both shapes at once: a [viewpage.action] path below a [/pages/77]
    segment, with two [pageId] values. *)
Definition url_both : pystr :=
  u "https://example.atlassian.net/wiki/pages/77/viewpage.action?pageId=5&pageId=6".

Definition both_parsed : ParseResult :=
  {| scheme := u "https"; netloc := u "example.atlassian.net";
     path := u "/wiki/pages/77/viewpage.action"; query := u "pageId=5&pageId=6" |}.

Definition none_parsed : ParseResult :=
  {| scheme := u "https"; netloc := u "example.atlassian.net";
     path := u "/wiki/spaces/ENG/overview"; query := [] |}.

(** A user record without [displayName]. *)
Definition nameless : json := JObj [(u "accountId", JStr jane)].

(** Page 105 is an empty object, page 106 a list, page 107 redirects with
    a JSON body; the user record has no name. *)
Definition odd : Env :=
  run_of [ (content_url (u "105"), answer 200 (JObj []));
           (content_url (u "106"), answer 200 (JArr [JNum 1]));
           (content_url (u "107"), answer 302 bare_page);
           (user_url jane, answer 200 nameless) ]
         (FileLines [url_105]) (Some (u "token")).

(** The page exists; the user lookup cannot connect. *)
Definition cut_off : Env :=
  run_of [ (content_url (u "103"), answer 200 bare_page) ]
         (FileLines [url_103]) (Some (u "token")).

(** A world whose dictionary 0 already knows the user. *)
Definition warm : world :=
  {| sent := []; files := ∅; stdout := []; heap := [[(JStr jane, JStr (u "Jane Doe"))]] |}.

(** A world whose dictionary 0 knows another user. *)
Definition knows_bob : world :=
  {| sent := []; files := ∅; stdout := []; heap := [[(JStr (u "bob"), JStr (u "Bob"))]] |}.

Definition friendly_routes : list (pystr * net_result) :=
  [ (content_url (u "101"), answer 200 spec_page);
    (content_url (u "102"), answer 404 not_found);
    (content_url (u "103"), answer 200 bare_page);
    (user_url jane, answer 200 jane_doe) ].

(** A page written by a user the server does not answer for. *)
Definition carol_page : json :=
  JObj [ (u "title", JStr (u "Notes"));
         (u "history", JObj [(u "createdBy", JObj [(u "accountId", JStr (u "carol"))])]) ].

(** Pages 101 and 103 exist and 102 does not, as in [friendly]; the
    author of page 103 cannot be looked up: that request does not connect. *)
Definition stranger : Env :=
  run_of [ (content_url (u "101"), answer 200 spec_page);
           (content_url (u "102"), answer 404 not_found);
           (content_url (u "103"), answer 200 carol_page);
           (user_url jane, answer 200 jane_doe) ]
         (FileLines [url_101; url_102; url_103]) (Some (u "token")).

(** Both pages exist; no user lookup connects. *)
Definition no_user_service : Env :=
  run_of [ (content_url (u "103"), answer 200 bare_page);
           (content_url (u "101"), answer 200 spec_page) ]
         (FileLines [url_103; url_101]) (Some (u "token")).

Definition is_fetch (c : call) : bool :=
  match call_purpose c with
  | FetchPage => true
  | LookupUser _ => false
  end.

(** Blank lines and padding around the three URLs of [friendly]. *)
Definition padded_lines : list pystr :=
  [ u "  "; url_101; []; u " " ++ url_102 ++ u "  "; url_103 ++ nl; nl ].

End Edge.

(* ===================================================================== *)
(** ** The definitions on small inputs *)
(* ===================================================================== *)

Example u_ascii : u "/wiki" = [47; 119; 105; 107; 105]%N.
Proof. reflexivity. Qed.

Example u_kana : u "作成者" = [20316; 25104; 32773]%N.
Proof. reflexivity. Qed.

Example int_str_200 : int_str 200 = u "200" /\ int_str (-7) = u "-7" /\ int_str 0 = u "0".
Proof. repeat split; reflexivity. Qed.

Example split_on_lines : split_on 10%N (u "a" ++ nl ++ nl ++ u "b") = [u "a"; []; u "b"].
Proof. reflexivity. Qed.

Example truthy_examples :
  Py.truthy JNull = false /\ Py.truthy (JStr []) = false /\
  Py.truthy (JStr (u "5b10")) = true /\ Py.truthy Py.empty_dict = false.
Proof. repeat split. Qed.

Example get_on_non_dict : Py.get JNull (u "key") JNull = Raise AttributeError.
Proof. reflexivity. Qed.

Example urlparse_viewpage :
  RefLib.urlparse_ascii (u "https://example.atlassian.net/wiki/pages/viewpage.action?pageId=123#top")
  = Ok {| scheme := u "https"; netloc := u "example.atlassian.net";
          path := u "/wiki/pages/viewpage.action"; query := u "pageId=123" |}.
Proof. reflexivity. Qed.

Example parse_qs_fields :
  RefLib.parse_qs_ascii (u "a=1&pageId=42&b=&pageId=7") = [(u "a", [u "1"]); (u "pageId", [u "42"; u "7"])].
Proof. reflexivity. Qed.

(* ===================================================================== *)
(** ** The reference instance obeys the laws *)
(* ===================================================================== *)

Lemma add_value_values k v d :
  Forall (fun kv : pystr * list pystr => snd kv <> []) d ->
  Forall (fun kv : pystr * list pystr => snd kv <> []) (RefLib.add_value k v d).
Proof.
  induction 1 as [| [k' vs] d Hkv Hd IH]; cbn [RefLib.add_value].
  - constructor; [discriminate | constructor].
  - destruct (str_eqb k k').
    + constructor; [| exact Hd]. cbn. destruct vs; discriminate.
    + constructor; [exact Hkv | exact IH].
Qed.

Lemma assoc_Forall {V} (P : V -> Prop) k (d : list (pystr * V)) v :
  Forall (fun kv => P (snd kv)) d -> Py.assoc k d = Some v -> P v.
Proof.
  induction 1 as [| [k' v'] d Hkv Hd IH]; cbn [Py.assoc]; [discriminate |].
  destruct (str_eqb k k'); [intros [= <-]; exact Hkv | exact IH].
Qed.

Lemma parse_qs_ascii_values qs k vs :
  Py.assoc k (RefLib.parse_qs_ascii qs) = Some vs -> vs <> [].
Proof.
  apply (assoc_Forall (fun vs => vs <> [])). unfold RefLib.parse_qs_ascii.
  assert (H : Forall (fun kv : pystr * list pystr => snd kv <> []) []) by constructor.
  revert H. generalize (@nil (pystr * list pystr)).
  induction (split_on 38%N qs) as [| field fields IH]; intros d Hd; [exact Hd |].
  cbn [fold_left]. apply IH.
  destruct (RefLib.break_at (RefLib.is_char 61) field) as [name v].
  destruct (tail v); [exact Hd | now apply add_value_values].
Qed.

#[global] Instance RefLib_laws : PyLibLaws RefLib.lib.
Proof. constructor. exact parse_qs_ascii_values. Qed.

(* ===================================================================== *)
(** ** Reasoning about computations *)
(* ===================================================================== *)

Lemma bind_ok {A B} (m : M A) (k : A -> M B) w a w' :
  m w = (Ok a, w') -> bind m k w = k a w'.
Proof. intros E. unfold bind. now rewrite E. Qed.

Lemma bind_lift_ok {A B} (r : result A) (k : A -> M B) w a :
  r = Ok a -> bind (lift r) k w = k a w.
Proof. intros ->. reflexivity. Qed.

Lemma bind_lift_Ok {A B} (a : A) (k : A -> M B) w : bind (lift (Ok a)) k w = k a w.
Proof. reflexivity. Qed.

(** One step of a computation whose outcome is known. *)
Ltac step :=
  cbv beta;
  match goal with
  | |- context [bind (lift (Ok ?a)) ?k ?w] => rewrite (bind_lift_Ok a k w)
  | E : ?r = Ok ?a |- context [bind (lift ?r) ?k ?w] => rewrite (bind_lift_ok r k w a E)
  | E : ?m ?w = (Ok ?a, ?w') |- context [bind ?m ?k ?w] => rewrite (bind_ok m k w a w' E)
  end.

Lemma str_eqb_refl s : str_eqb s s = true.
Proof. unfold str_eqb. now apply bool_decide_eq_true. Qed.

Lemma key_eqb_refl k : Py.hashable k = true -> Py.key_eqb k k = true.
Proof.
  destruct k as [| b | z | s | l | kv]; simpl; intros H; try discriminate; trivial.
  - now destruct b.
  - apply Z.eqb_refl.
  - apply str_eqb_refl.
Qed.

Lemma contains_hashable k d b : Py.dict_contains k d = Ok b -> Py.hashable k = true.
Proof. unfold Py.dict_contains. destruct (Py.hashable k); [trivial | discriminate]. Qed.

Lemma contains_false_find k d : Py.dict_contains k d = Ok false -> Py.dict_find k d = None.
Proof.
  unfold Py.dict_contains. destruct (Py.hashable k); [| discriminate].
  intros [= E]. apply bool_decide_eq_false in E.
  destruct (Py.dict_find k d); [| reflexivity].
  exfalso. apply E. eauto.
Qed.

Section Resolver.

Context {lib : PyLib} (env : Env).

(** [get_display_name] as one case analysis on the world. *)
Lemma get_display_name_eq account_id session base_url cache w :
  get_display_name env account_id session base_url cache w =
  if negb (Py.truthy account_id) then (Ok (JStr unknown_creator), w)
  else
    match Py.dict_contains account_id (dict_at cache w) with
    | Raise e => (Raise e, w)
    | Ok true => (Ok (default JNull (Py.dict_find account_id (dict_at cache w))), w)
    | Ok false =>
      let answer := net env (length (sent w)) (user_lookup session base_url account_id) in
      let w1 := with_sent w (sent w ++ [lookup_call session base_url account_id answer]) in
      match answer with
      | Failed e => (Raise (RequestException e), w1)
      | Answered r =>
        if status_code r =? 200 then
          match json_body r with
          | None => (Raise (RequestException InvalidJSON), w1)
          | Some body =>
            match Py.get body (u "displayName") account_id with
            | Raise e => (Raise e, w1)
            | Ok display_name =>
              (Ok display_name,
               with_heap w1 (<[cache := Py.dict_store account_id display_name
                                          (dict_at cache w1)]> (heap w1)))
            end
          end
        else (Ok account_id, with_stdout w1 (stdout w1 ++ [lookup_warning account_id r]))
      end
    end.
Proof.
  unfold get_display_name.
  destruct (negb (Py.truthy account_id)); [reflexivity |].
  unfold bind at 1, dict_contains at 1.
  destruct (Py.dict_contains account_id (dict_at cache w)) as [[|] | e]; try reflexivity.
  unfold bind at 1, session_get at 1.
  fold (user_lookup session base_url account_id).
  cbv zeta. unfold lookup_call.
  destruct (net env (length (sent w)) (user_lookup session base_url account_id)) as [e | r];
    [reflexivity |].
  destruct (status_code r =? 200); [| reflexivity].
  unfold bind, response_json, lift, ret.
  destruct (json_body r) as [body |]; [| reflexivity].
  destruct (Py.get body (u "displayName") account_id); reflexivity.
Qed.

(** A truthy id that is not cached costs one request, whatever the answer. *)
Lemma get_display_name_sends account_id session base_url cache w :
  Py.truthy account_id = true ->
  Py.dict_contains account_id (dict_at cache w) = Ok false ->
  sent (snd (get_display_name env account_id session base_url cache w))
  = sent w ++ [lookup_call session base_url account_id
                 (net env (length (sent w)) (user_lookup session base_url account_id))].
Proof.
  intros Ht Hc. rewrite get_display_name_eq, Ht, Hc. cbn [negb]. cbv zeta.
  destruct (net env (length (sent w)) (user_lookup session base_url account_id)) as [e | r];
    [reflexivity |].
  destruct (status_code r =? 200); [| reflexivity].
  destruct (json_body r) as [body |]; [| reflexivity].
  destruct (Py.get body (u "displayName") account_id); reflexivity.
Qed.

Lemma dict_find_stored k v d :
  Py.hashable k = true -> Py.dict_find k (Py.dict_store k v d) = Some v.
Proof.
  intros Hk. induction d as [| [k' v'] d IH]; simpl.
  - now rewrite key_eqb_refl.
  - destruct (Py.key_eqb k k') eqn:E; simpl; rewrite E; auto.
Qed.

Lemma dict_contains_stored k v d :
  Py.hashable k = true -> Py.dict_contains k (Py.dict_store k v d) = Ok true.
Proof.
  intros Hk. unfold Py.dict_contains. rewrite Hk, dict_find_stored by exact Hk.
  f_equal; apply bool_decide_eq_true; eauto.
Qed.

(** After a lookup answered with status 200 and a JSON object, the same
    id is served from the cache: one request for two calls. *)
Lemma lookup_twice account_id session base_url cache w r fields :
  Py.truthy account_id = true ->
  Py.hashable account_id = true ->
  heap w !! cache = Some [] ->
  net env (length (sent w)) (user_lookup session base_url account_id) = Answered r ->
  status_code r = 200 ->
  json_body r = Some (JObj fields) ->
  let name := default account_id (Py.assoc (u "displayName") fields) in
  let first := get_display_name env account_id session base_url cache w in
  let second := get_display_name env account_id session base_url cache (snd first) in
  fst first = Ok name /\ fst second = Ok name /\
  sent (snd second)
  = sent w ++ [lookup_call session base_url account_id (Answered r)].
Proof.
  intros Ht Hh Hc Hn Hs Hj name first second.
  assert (Hlt : (cache < length (heap w))%nat) by (eapply lookup_lt_Some; exact Hc).
  assert (Hat : dict_at cache w = []) by (unfold dict_at; now rewrite Hc).
  assert (E1 : first =
    (Ok name,
     with_heap (with_sent w (sent w ++ [lookup_call session base_url account_id (Answered r)]))
       (<[cache := Py.dict_store account_id name []]> (heap w)))).
  { unfold first. rewrite get_display_name_eq, Ht, Hat. simpl negb. cbv iota.
    unfold Py.dict_contains. rewrite Hh. simpl Py.dict_find.
    rewrite bool_decide_eq_false_2 by (intros [x Hx]; discriminate).
    cbv zeta. rewrite Hn, Hs. simpl Z.eqb. cbv iota. rewrite Hj. simpl Py.get. cbv iota.
    unfold dict_at. simpl heap. rewrite Hc. reflexivity. }
  assert (E2 : second = (Ok name, snd first)).
  { unfold second. rewrite E1. simpl snd. rewrite get_display_name_eq, Ht. simpl negb. cbv iota.
    assert (Hd : dict_at cache
              (with_heap (with_sent w
                 (sent w ++ [lookup_call session base_url account_id (Answered r)]))
                 (<[cache := Py.dict_store account_id name []]> (heap w)))
            = Py.dict_store account_id name []).
    { unfold dict_at. simpl heap. now rewrite list_lookup_insert_eq by exact Hlt. }
    simpl Py.dict_store in Hd. rewrite Hd.
    change [(account_id, name)] with (Py.dict_store account_id name []).
    rewrite dict_contains_stored, dict_find_stored by exact Hh. reflexivity. }
  rewrite E2, E1. simpl. auto.
Qed.

End Resolver.

(* ===================================================================== *)
(** ** The parser and the page fetch, case by case *)
(* ===================================================================== *)

Section Cases.

Context {lib : PyLib} (env : Env).

Lemma parse_confluence_url_eq url w :
  parse_confluence_url url w =
  match urlparse url with
  | Raise e => (Ok None, say (parse_error_message url e) w)
  | Ok p =>
    match viewpage_page_id p with
    | Raise e => (Ok None, say (parse_error_message url e) w)
    | Ok (Some page_id) => (Ok (Some (base_url_of p, page_id)), w)
    | Ok None =>
      match search_pages_digits (path p) with
      | Some page_id => (Ok (Some (base_url_of p, page_id)), w)
      | None => (Ok None, say (no_id_message url) w)
      end
    end
  end.
Proof.
  unfold parse_confluence_url, try_except, bind, lift.
  destruct (urlparse url) as [p | e]; [| reflexivity].
  destruct (viewpage_page_id p) as [[page_id |] | e]; try reflexivity.
  destruct (search_pages_digits (path p)); reflexivity.
Qed.

(** An accepted URL leaves the world as it was. *)
Lemma parse_accepts_silently url w found :
  fst (parse_confluence_url url w) = Ok (Some found) ->
  parse_confluence_url url w = (Ok (Some found), w).
Proof.
  rewrite parse_confluence_url_eq.
  destruct (urlparse url) as [p | e]; [| discriminate].
  destruct (viewpage_page_id p) as [[page_id |] | e]; try discriminate.
  - simpl. now intros [= ->].
  - destruct (search_pages_digits (path p)); [| discriminate].
    simpl. now intros [= ->].
Qed.

Lemma get_page_eq page_id base_url session w :
  get_page env page_id base_url session None w =
  let answer := net env (length (sent w)) (page_request session base_url page_id) in
  let w1 := with_sent w (sent w ++ [fetch_call session base_url page_id answer]) in
  match answer with
  | Failed e => (Ok JNull, say (fetch_error_message e) w1)
  | Answered r =>
    if (400 <=? status_code r) && (status_code r <? 600)
    then (Ok JNull, say (fetch_error_message (HTTPError (status_code r))) w1)
    else match json_body r with
         | Some page => (Ok page, w1)
         | None => (Ok JNull, say (fetch_error_message InvalidJSON) w1)
         end
  end.
Proof.
  unfold get_page, try_except. unfold bind at 1, session_get at 1.
  simpl default. fold (page_request session base_url page_id).
  cbv zeta. unfold fetch_call.
  destruct (net env (length (sent w)) (page_request session base_url page_id)) as [e | r];
    [reflexivity |].
  unfold bind, raise_for_status, response_json, lift, ret.
  destruct ((400 <=? status_code r) && (status_code r <? 600)); [reflexivity |].
  destruct (json_body r); reflexivity.
Qed.

(** The fetch sends one request and touches neither files nor dictionaries. *)
Lemma get_page_frame page_id base_url session w :
  let w1 := snd (get_page env page_id base_url session None w) in
  files w1 = files w /\ heap w1 = heap w /\
  sent w1 = sent w ++ [fetch_call session base_url page_id
                         (net env (length (sent w)) (page_request session base_url page_id))].
Proof.
  rewrite get_page_eq. cbv zeta.
  destruct (net env (length (sent w)) (page_request session base_url page_id)) as [e | r];
    [simpl; auto |].
  destruct ((400 <=? status_code r) && (status_code r <? 600)); [simpl; auto |].
  destruct (json_body r); simpl; auto.
Qed.

(** The resolver never touches the files. *)
Lemma get_display_name_files account_id session base_url cache w :
  files (snd (get_display_name env account_id session base_url cache w)) = files w.
Proof.
  rewrite get_display_name_eq.
  destruct (negb (Py.truthy account_id)); [reflexivity |].
  destruct (Py.dict_contains account_id (dict_at cache w)) as [[|] | e]; try reflexivity.
  cbv zeta.
  destruct (net env _ _) as [e | r]; [reflexivity |].
  destruct (status_code r =? 200); [| reflexivity].
  destruct (json_body r) as [body |]; [| reflexivity].
  destruct (Py.get body _ _); reflexivity.
Qed.

End Cases.

(* ===================================================================== *)
(** ** One page *)
(* ===================================================================== *)

Section OnePage.

Context {lib : PyLib} (env : Env).

Lemma markdown_content_lines v author text :
  markdown_content (title v) (link v) (space_name v) author (last_updated v) text
  = join_lines (block_lines v author text).
Proof.
  unfold markdown_content, join_lines, block_lines. cbn [map concat].
  repeat rewrite <- app_assoc. rewrite app_nil_r. reflexivity.
Qed.

(** The digits found after [/pages/]: at least one, and digits only. *)
Lemma search_pages_digits_some s d :
  search_pages_digits s = Some d -> d <> [] /\ forallb isdigit d = true.
Proof.
  induction s as [| c s IH]; [discriminate |].
  cbn [search_pages_digits].
  destruct (strip_prefix (u "/pages/") (c :: s)) as [after |]; [| exact IH].
  destruct (take_while isdigit after) as [| x ds] eqn:Et; [exact IH |].
  intros [= <-]. split; [discriminate |].
  rewrite <- Et. clear. induction after as [| a r IHr]; [reflexivity |].
  cbn [take_while]. destruct (isdigit a) eqn:Ea; [| reflexivity].
  cbn [forallb]. now rewrite Ea.
Qed.

Lemma viewpage_page_id_some p id :
  viewpage_page_id p = Ok (Some id) ->
  contains (u "viewpage.action") (path p) = true /\
  first_pageId (parse_qs (query p)) = Ok (Some id) /\ id <> [].
Proof.
  unfold viewpage_page_id.
  destruct (contains (u "viewpage.action") (path p)); [| discriminate].
  destruct (first_pageId (parse_qs (query p))) as [[[| c r] |] | e]; try discriminate.
  intros [= <-]. repeat split; discriminate.
Qed.

Lemma base_url_not_empty p : base_url_of p <> [].
Proof.
  unfold base_url_of. destruct (scheme p); [vm_compute | cbn]; discriminate.
Qed.

(** What an accepted URL gives. *)
Lemma parse_accepted url w base_url page_id :
  fst (parse_confluence_url url w) = Ok (Some (base_url, page_id)) ->
  exists p, urlparse url = Ok p /\ base_url = base_url_of p /\ page_id <> [] /\
    (viewpage_page_id p = Ok (Some page_id) \/
     viewpage_page_id p = Ok None /\ search_pages_digits (path p) = Some page_id).
Proof.
  rewrite parse_confluence_url_eq.
  destruct (urlparse url) as [p | e]; [| discriminate].
  destruct (viewpage_page_id p) as [[id |] | e] eqn:Ev; try discriminate.
  - cbn [fst]. intros [= <- <-]. exists p. repeat split; auto.
    now apply viewpage_page_id_some in Ev.
  - destruct (search_pages_digits (path p)) as [d |] eqn:Es; [| discriminate].
    cbn [fst]. intros [= <- <-]. exists p. repeat split; auto.
    now apply search_pages_digits_some in Es.
Qed.

Lemma parse_accepted_guard url w base_url page_id :
  fst (parse_confluence_url url w) = Ok (Some (base_url, page_id)) ->
  is_empty page_id || is_empty base_url = false.
Proof.
  intros H. apply parse_accepted in H as (p & _ & -> & Hid & _).
  pose proof (base_url_not_empty p) as Hb.
  destruct page_id; [congruence |]. destruct (base_url_of p); [congruence | reflexivity].
Qed.

(** A URL the parser rejects is skipped: nothing but the parser's line. *)
Lemma process_url_rejected session md_file cache url w :
  fst (parse_confluence_url url w) = Ok None ->
  process_url env session md_file cache url w
  = (Ok tt, snd (parse_confluence_url url w)).
Proof.
  intros H. unfold process_url, bind.
  destruct (parse_confluence_url url w) as [[[found |] | e] w1]; try discriminate.
  reflexivity.
Qed.

(** A page whose fetch gives nothing usable is skipped with a notice. *)
Lemma process_url_not_fetched session md_file cache url w base_url page_id page w1 :
  fst (parse_confluence_url url w) = Ok (Some (base_url, page_id)) ->
  get_page env page_id base_url session None w = (Ok page, w1) ->
  Py.truthy page = false ->
  process_url env session md_file cache url w = (Ok tt, say (not_fetched_notice url) w1).
Proof.
  intros Hp Hf Ht. unfold process_url.
  rewrite (bind_ok _ _ _ _ _ (parse_accepts_silently _ _ _ Hp)).
  rewrite (parse_accepted_guard _ _ _ _ Hp).
  rewrite (bind_ok _ _ _ _ _ Hf). rewrite Ht. reflexivity.
Qed.

(** A fetched page whose members have the expected shape is written. *)
Lemma process_url_rendered session md_file cache url w base_url page_id page w1
    v text name w2 :
  fst (parse_confluence_url url w) = Ok (Some (base_url, page_id)) ->
  get_page env page_id base_url session None w = (Ok page, w1) ->
  Py.truthy page = true ->
  view_page page url = Ok v ->
  md (html v) = Ok text ->
  get_display_name env (account_id v) session base_url cache w1 = (Ok name, w2) ->
  process_url env session md_file cache url w = (Ok tt, written md_file v name text w2).
Proof.
  intros Hp Hf Ht Hv Hmd Hname. unfold process_url.
  rewrite (bind_ok _ _ _ _ _ (parse_accepts_silently _ _ _ Hp)).
  rewrite (parse_accepted_guard _ _ _ _ Hp).
  rewrite (bind_ok _ _ _ _ _ Hf). rewrite Ht.
  unfold view_page in Hv.
  repeat match type of Hv with
         | and_then ?r _ = Ok _ =>
           let E := fresh "E" in
           destruct r eqn:E; [cbn [and_then] in Hv | discriminate Hv]
         end.
  injection Hv as <-. cbn [html account_id title space_name link last_updated] in *.
  unfold extract_data_from_html. repeat step.
  match goal with
  | |- _ = (_, written _ ?v' _ _ _) =>
    pose proof (markdown_content_lines v' name text) as Hl
  end.
  cbn [title space_name link last_updated] in Hl.
  unfold written. rewrite <- Hl. reflexivity.
Qed.

End OnePage.

(* ===================================================================== *)
(** ** The batch *)
(* ===================================================================== *)

Lemma for_each_cons {A} (x : A) rest (body : A -> M unit) w :
  for_each (x :: rest) body w =
  match body x w with
  | (Ok _, w') => for_each rest body w'
  | (Raise e, w') => (Raise e, w')
  end.
Proof. reflexivity. Qed.

(** A body that returns lets the loop go on with the next element. *)
Lemma for_each_continue {A} (x : A) rest (body : A -> M unit) w :
  fst (body x w) = Ok tt ->
  for_each (x :: rest) body w = for_each rest body (snd (body x w)).
Proof.
  intros H. rewrite for_each_cons. destruct (body x w) as [[[] | e] w']; [reflexivity | discriminate].
Qed.

Section Batch.

Context {lib : PyLib} (env : Env).

Lemma process_pages_from_urls_eq page_urls session w :
  process_pages_from_urls env page_urls session w
  = for_each page_urls (process_url env session (output_path env) (length (heap w)))
      (batch_start env w).
Proof. reflexivity. Qed.

Lemma rendered_appends session md_file cache url w block :
  page_renders env session cache url w block ->
  let out := process_url env session md_file cache url w in
  fst out = Ok tt /\
  files (snd out) = <[md_file := default [] (files w !! md_file) ++ block]> (files w).
Proof.
  intros (base_url & page_id & page & w1 & v & text & name & w2
          & Hp & Hf & Ht & Hv & Hmd & Hn & ->).
  cbv zeta. rewrite (process_url_rendered env _ _ _ _ _ _ _ _ _ _ _ _ _ Hp Hf Ht Hv Hmd Hn).
  split; [reflexivity |].
  pose proof (get_page_frame env page_id base_url session w) as (Hfiles & _).
  rewrite Hf in Hfiles. cbn [snd] in Hfiles.
  pose proof (get_display_name_files env (account_id v) session base_url cache w1) as Hfiles2.
  rewrite Hn in Hfiles2. cbn [snd] in Hfiles2.
  unfold written, say, append_text. cbn [snd files with_stdout with_files].
  now rewrite Hfiles2, Hfiles.
Qed.

Lemma failed_fetch_skips session md_file cache url w :
  page_fetch_fails env session url w ->
  let out := process_url env session md_file cache url w in
  fst out = Ok tt /\ files (snd out) = files w /\ heap (snd out) = heap w.
Proof.
  intros (base_url & page_id & w1 & Hp & Hf). cbv zeta.
  rewrite (process_url_not_fetched env _ _ _ _ _ _ _ _ _ Hp Hf eq_refl).
  pose proof (get_page_frame env page_id base_url session w) as (Hfiles & Hheap & _).
  rewrite Hf in Hfiles, Hheap. cbn [snd] in Hfiles, Hheap.
  unfold say. cbn [fst snd files heap with_stdout]. auto.
Qed.

Lemma rejected_url_skips session md_file cache url w :
  fst (parse_confluence_url url w) = Ok None ->
  let out := process_url env session md_file cache url w in
  fst out = Ok tt /\ files (snd out) = files w /\ heap (snd out) = heap w
  /\ sent (snd out) = sent w.
Proof.
  intros Hp. cbv zeta. rewrite (process_url_rejected env _ _ _ _ _ Hp).
  cbn [fst snd]. clear Hp. rewrite parse_confluence_url_eq.
  destruct (urlparse url) as [p | e]; [| cbn; auto].
  destruct (viewpage_page_id p) as [[id |] | e]; try (cbn; auto).
  destruct (search_pages_digits (path p)); cbn; auto.
Qed.

End Batch.

(* ===================================================================== *)
(** ** Invariants of a run *)
(* ===================================================================== *)

Lemma keeps_ret {A} (I E : world -> Prop) (a : A) : keeps I E (ret a).
Proof. intros w H. exact H. Qed.

Lemma keeps_lift {A} (I E : world -> Prop) (r : result A) :
  (forall w, I w -> E w) -> keeps I E (lift r).
Proof. intros HE w H. unfold lift. destruct r; auto. Qed.

Lemma keeps_bind {A B} (I E : world -> Prop) (m : M A) (k : A -> M B) :
  keeps I E m -> (forall a, keeps I E (k a)) -> keeps I E (bind m k).
Proof.
  intros Hm Hk w H. unfold bind. specialize (Hm w H).
  destruct (m w) as [[a | e] w']; [apply Hk, Hm | exact Hm].
Qed.

Lemma keeps_for_each {A} (I E : world -> Prop) (xs : list A) (body : A -> M unit) :
  (forall x, keeps I E (body x)) -> keeps I E (for_each xs body).
Proof.
  intros Hb. induction xs as [| x rest IH]; [apply keeps_ret |].
  cbn [for_each]. apply keeps_bind; [apply Hb | intros _; exact IH].
Qed.

Lemma keeps_quiet {A} (I E : world -> Prop) (m : M A) :
  log_and_heap_only I -> (forall w, I w -> E w) ->
  (forall w, sent (snd (m w)) = sent w /\ heap (snd (m w)) = heap w) ->
  keeps I E m.
Proof.
  intros HI HE Hq w H. destruct (Hq w) as [Hs Hh].
  destruct (m w) as [[a | e] w']; cbn [snd] in *; [| apply HE]; now apply (HI w).
Qed.

(** Equality of dictionary keys is an equivalence. *)
Lemma key_eqb_trans a b k :
  Py.key_eqb a b = true -> Py.key_eqb a k = Py.key_eqb b k.
Proof.
  unfold Py.key_eqb, str_eqb.
  destruct a as [| x | x | x | x | x], b as [| y | y | y | y | y]; try discriminate;
    intros H; try reflexivity.
  all: try (apply Z.eqb_eq in H); try (apply bool_decide_eq_true in H);
       try (apply Bool.eqb_prop in H); subst; try reflexivity.
  all: destruct k as [| z | z | z | z | z]; try reflexivity.
  all: try (destruct x; destruct z; reflexivity).
  all: try (destruct y; destruct z; reflexivity).
  all: try (destruct x; reflexivity).
  all: try (destruct y; reflexivity).
  all: try (destruct z; cbn; try reflexivity; apply Z.eqb_sym).
Qed.

Lemma dict_find_key_eqb a b d :
  Py.key_eqb a b = true -> Py.dict_find a d = Py.dict_find b d.
Proof.
  intros H. induction d as [| [k v] d IH]; [reflexivity |].
  cbn [Py.dict_find]. rewrite (key_eqb_trans a b k H), IH. reflexivity.
Qed.

(** Storing a key never removes another one. *)
Lemma dict_find_store_keeps a k v d :
  is_Some (Py.dict_find a d) -> is_Some (Py.dict_find a (Py.dict_store k v d)).
Proof.
  induction d as [| [k' v'] d IH]; cbn [Py.dict_find Py.dict_store].
  - intros [x Hx]. discriminate.
  - destruct (Py.key_eqb k k') eqn:Ek; cbn [Py.dict_find];
      destruct (Py.key_eqb a k'); eauto.
Qed.

(* ===================================================================== *)
(** ** At most one answered lookup per account id *)
(* ===================================================================== *)

Lemma lookups_200_snoc a log c :
  lookups_200 a (log ++ [c])
  = (lookups_200 a log + if looks_up a c && answered_200 c then 1 else 0)%nat.
Proof.
  unfold lookups_200. rewrite List.filter_app, length_app. cbn [List.filter].
  destruct (looks_up a c && answered_200 c); reflexivity.
Qed.

Section AtMostOnce.

Context {lib : PyLib} (env : Env).
Variables (old : list call) (cache : nat).

Lemma cache_inv_once w : (cache_inv old cache) w -> (once old) w.
Proof. intros (_ & new & Hs & H). exists new. split; [exact Hs | intros a; apply H]. Qed.

Lemma cache_inv_stable : log_and_heap_only (cache_inv old cache).
Proof.
  intros w w' Hs Hh (Hlt & new & Hn & H). unfold cache_inv, dict_at.
  rewrite Hh, Hs. split; [exact Hlt |]. exists new. split; [exact Hn | exact H].
Qed.

Lemma cache_inv_snoc w w' c :
  (cache_inv old cache) w -> sent w' = sent w ++ [c] -> heap w' = heap w ->
  (forall a, looks_up a c && answered_200 c = false) -> (cache_inv old cache) w'.
Proof.
  intros (Hlt & new & Hs & H) Hs' Hh Hc. unfold cache_inv, dict_at. rewrite Hh.
  split; [exact Hlt |]. exists (new ++ [c]).
  rewrite Hs', Hs, app_assoc. split; [reflexivity |].
  intros a. rewrite lookups_200_snoc, Hc, Nat.add_0_r. apply H.
Qed.

Lemma keeps_get_page page_id base_url session :
  keeps (cache_inv old cache) (once old) (get_page env page_id base_url session None).
Proof.
  intros w H.
  pose proof (get_page_frame env page_id base_url session w) as (_ & Hh & Hs).
  assert (Hinv : (cache_inv old cache) (snd (get_page env page_id base_url session None w))).
  { eapply cache_inv_snoc; [exact H | exact Hs | exact Hh | reflexivity]. }
  destruct (get_page env page_id base_url session None w) as [[page | e] w'];
    [exact Hinv | apply cache_inv_once, Hinv].
Qed.

Lemma keeps_get_display_name a session base_url :
  keeps (cache_inv old cache) (once old) (get_display_name env a session base_url cache).
Proof.
  intros w H. rewrite get_display_name_eq.
  destruct (negb (Py.truthy a)); [exact H |].
  destruct (Py.dict_contains a (dict_at cache w)) as [[|] | e] eqn:Ec;
    [exact H | | apply cache_inv_once, H].
  pose proof (contains_hashable _ _ _ Ec) as Hha.
  pose proof (contains_false_find _ _ Ec) as Hmiss.
  cbv zeta.
  set (answer := net env (length (sent w)) (user_lookup session base_url a)) in *.
  set (c := lookup_call session base_url a answer).
  set (w1 := with_sent w (sent w ++ [c])).
  assert (Hs1 : sent w1 = sent w ++ [c]) by reflexivity.
  assert (Hh1 : heap w1 = heap w) by reflexivity.
  (* the count of an id equal to [a] was zero before *)
  assert (Hzero : forall new a', sent w = old ++ new ->
            (forall x, (lookups_200 x new <= 1)%nat /\
               ((1 <= lookups_200 x new)%nat ->
                is_Some (Py.dict_find x (dict_at cache w)))) ->
            looks_up a' c = true -> lookups_200 a' new = 0%nat).
  { intros new a' _ Hall Hl. unfold looks_up, c, lookup_call in Hl. cbn in Hl.
    destruct (Hall a') as [Hle Hin].
    destruct (lookups_200 a' new) as [| n]; [reflexivity |].
    exfalso. destruct Hin as [v Hv]; [lia |].
    rewrite (dict_find_key_eqb _ _ _ Hl), Hmiss in Hv. discriminate. }
  assert (Honce : (once old) w1).
  { destruct H as (Hlt & new & Hs & Hall). exists (new ++ [c]).
    rewrite Hs1, Hs, app_assoc. split; [reflexivity |].
    intros a'. rewrite lookups_200_snoc.
    destruct (looks_up a' c) eqn:El.
    - rewrite (Hzero new a' Hs Hall El). destruct (true && answered_200 c); lia.
    - cbn [andb]. destruct (Hall a'). lia. }
  destruct answer as [e | r] eqn:Ea; [exact Honce |].
  destruct (status_code r =? 200) eqn:E200.
  - destruct (json_body r) as [body |]; [| exact Honce].
    destruct (Py.get body (u "displayName") a) as [name | e]; [| exact Honce].
    destruct H as (Hlt & new & Hs & Hall). unfold cache_inv.
    cbn [heap with_heap]. rewrite length_insert, Hh1.
    split; [exact Hlt |]. exists (new ++ [c]). cbn [sent with_heap].
    rewrite Hs1, Hs, app_assoc. split; [reflexivity |].
    intros a'.
    assert (Hd : dict_at cache (with_heap w1
                   (<[cache := Py.dict_store a name (dict_at cache w1)]> (heap w)))
                 = Py.dict_store a name (dict_at cache w)).
    { unfold dict_at. cbn [heap with_heap]. rewrite Hh1.
      now rewrite list_lookup_insert_eq by exact Hlt. }
    rewrite Hd. rewrite lookups_200_snoc.
    destruct (looks_up a' c) eqn:El.
    + rewrite (Hzero new a' Hs Hall El). split; [destruct (true && answered_200 c); lia |].
      intros _. unfold looks_up, c, lookup_call in El. cbn in El.
      rewrite (dict_find_key_eqb _ _ _ El), dict_find_stored by exact Hha. eauto.
    + cbn [andb]. rewrite Nat.add_0_r. destruct (Hall a') as [Hle Hin].
      split; [exact Hle |]. intros Hge. apply dict_find_store_keeps, Hin, Hge.
  - eapply cache_inv_stable; [| | eapply cache_inv_snoc; [exact H | exact Hs1 | exact Hh1 |]].
    + reflexivity.
    + reflexivity.
    + intros a'. unfold answered_200, c, lookup_call. cbn. rewrite E200.
      apply andb_false_r.
Qed.

Lemma parse_quiet url w :
  sent (snd (parse_confluence_url url w)) = sent w /\
  heap (snd (parse_confluence_url url w)) = heap w.
Proof.
  rewrite parse_confluence_url_eq.
  destruct (urlparse url) as [p | e]; [| cbn; auto].
  destruct (viewpage_page_id p) as [[id |] | e]; try (cbn; auto).
  destruct (search_pages_digits (path p)); cbn; auto.
Qed.

Lemma keeps_print s : keeps (cache_inv old cache) (once old) (print s).
Proof.
  apply keeps_quiet; [apply cache_inv_stable | apply cache_inv_once | intros w; cbn; auto].
Qed.

Lemma keeps_file_write p s : keeps (cache_inv old cache) (once old) (file_write p s).
Proof.
  apply keeps_quiet; [apply cache_inv_stable | apply cache_inv_once | intros w; cbn; auto].
Qed.

Lemma keeps_process_url session md_file url :
  keeps (cache_inv old cache) (once old) (process_url env session md_file cache url).
Proof.
  unfold process_url.
  apply keeps_bind.
  { apply keeps_quiet; [apply cache_inv_stable | apply cache_inv_once | apply parse_quiet]. }
  intros [[base_url page_id] |]; [| apply keeps_ret].
  destruct (is_empty page_id || is_empty base_url); [apply keeps_ret |].
  apply keeps_bind; [apply keeps_get_page |]. intros page.
  destruct (Py.truthy page); [| apply keeps_print].
  unfold extract_data_from_html.
  repeat first
    [ apply keeps_print
    | apply keeps_bind;
      [ first [ apply keeps_lift, cache_inv_once
              | apply keeps_get_display_name
              | apply keeps_file_write
              | apply keeps_print ]
      | intros ? ] ].
Qed.

(** The loop, started with [cache] allocated and no lookup yet. *)
Lemma keeps_batch session md_file page_urls :
  keeps (cache_inv old cache) (once old) (for_each page_urls (process_url env session md_file cache)).
Proof. apply keeps_for_each. intros url. apply keeps_process_url. Qed.

End AtMostOnce.

Section BatchLookups.

Context {lib : PyLib} (env : Env).

(** In a batch, no account id is looked up with success twice. *)
Lemma batch_lookups_once page_urls session w :
  exists new,
    sent (snd (process_pages_from_urls env page_urls session w)) = sent w ++ new /\
    forall a, (lookups_200 a new <= 1)%nat.
Proof.
  rewrite process_pages_from_urls_eq.
  pose proof (keeps_batch env (sent w) (length (heap w)) session (output_path env) page_urls
                (batch_start env w)) as H.
  assert (Hstart : cache_inv (sent w) (length (heap w)) (batch_start env w)).
  { split.
    - unfold batch_start. cbn [heap with_files with_heap]. rewrite length_app. cbn. lia.
    - exists []. split; [cbn; now rewrite app_nil_r |].
      intros a. cbn. split; [lia | lia]. }
  specialize (H Hstart).
  destruct (for_each page_urls _ (batch_start env w)) as [[[] | e] w'].
  - apply cache_inv_once in H. exact H.
  - exact H.
Qed.

End BatchLookups.

(* ===================================================================== *)
(** ** The path shape: leftmost [/pages/<digits>] *)
(* ===================================================================== *)

Lemma strip_prefix_app p s : strip_prefix p (p ++ s) = Some s.
Proof.
  induction p as [| c p IH]; [now destruct s |].
  cbn [app strip_prefix]. now rewrite N.eqb_refl.
Qed.

Lemma take_while_app f ds rest :
  forallb f ds = true -> stops f rest = true -> take_while f (ds ++ rest) = ds.
Proof.
  intros Hd Hr. induction ds as [| d ds IH].
  - destruct rest as [| c r]; [reflexivity |]. cbn in *.
    now destruct (f c).
  - cbn in *. apply andb_true_iff in Hd as [Hd1 Hd2]. rewrite Hd1. f_equal. auto.
Qed.

Section PathShape.

Context {lib : PyLib} {laws : PyLibLaws lib}.

Lemma search_skips c s :
  pages_digit_here (c :: s) = false ->
  search_pages_digits (c :: s) = search_pages_digits s.
Proof.
  unfold pages_digit_here. cbn [search_pages_digits].
  destruct (strip_prefix (u "/pages/") (c :: s)) as [[| x after] |]; try reflexivity.
  cbn [take_while]. now intros ->.
Qed.

Lemma search_here ds rest :
  ds <> [] -> forallb isdigit ds = true -> stops isdigit rest = true ->
  search_pages_digits (u "/pages/" ++ ds ++ rest) = Some ds.
Proof.
  intros Hne Hd Hr.
  destruct (u "/pages/" ++ ds ++ rest) as [| c s] eqn:Heq.
  - exfalso. vm_compute in Heq. discriminate.
  - cbn [search_pages_digits].
    rewrite <- Heq, strip_prefix_app, take_while_app by assumption.
    destruct ds; [congruence | reflexivity].
Qed.

(** The regex search returns the digits of the leftmost match. *)
Lemma search_leftmost pre ds rest :
  (forall i, (i < length pre)%nat ->
     pages_digit_here (drop i (pre ++ u "/pages/" ++ ds ++ rest)) = false) ->
  ds <> [] -> forallb isdigit ds = true -> stops isdigit rest = true ->
  search_pages_digits (pre ++ u "/pages/" ++ ds ++ rest) = Some ds.
Proof.
  intros Hleft Hne Hd Hr. induction pre as [| c pre IH].
  - now apply search_here.
  - cbn [app]. rewrite search_skips.
    + apply IH. intros i Hi. apply (Hleft (S i)). cbn. lia.
    + apply (Hleft 0%nat). cbn. lia.
Qed.

(** The query shape never raises. *)
Lemma viewpage_page_id_returns p : exists found, viewpage_page_id p = Ok found.
Proof.
  unfold viewpage_page_id.
  destruct (contains (u "viewpage.action") (path p)); [| eauto].
  unfold first_pageId.
  destruct (Py.assoc (u "pageId") (parse_qs (query p))) as [[| v vs] |] eqn:E; eauto.
  - exfalso. now apply parse_qs_values in E.
  - destruct v; eauto.
Qed.

End PathShape.

(* ===================================================================== *)
(** ** The entry point *)
(* ===================================================================== *)

Section Main.

Context {lib : PyLib} (env : Env).

Lemma urls_of_blank lines : forallb blank lines = true -> urls_of lines = [].
Proof.
  unfold urls_of. induction lines as [| l ls IH]; [reflexivity |].
  cbn [forallb List.filter]. intros H. apply andb_true_iff in H as [Hl Hls].
  rewrite Hl. cbn [negb]. now apply IH.
Qed.

Lemma main_eq w :
  main env w =
  match credentials env with
  | None => (Ok tt, say credentials_message w)
  | Some (user_name, api_token) =>
    match urls_txt env with
    | FileNotFound => (Ok tt, with_stdout w (stdout w ++ file_missing_messages))
    | FileUnreadable => (Raise OSError, w)
    | FileLines lines =>
      match urls_of lines with
      | [] => (Ok tt, say no_urls_message w)
      | page_urls =>
        process_pages_from_urls env page_urls {| auth := Some (user_name, api_token) |} w
      end
    end
  end.
Proof.
  unfold main, credentials, missing.
  destruct (getenv env (u "CONFLUENCE_API_TOKEN")) as [[| d api_token] |];
    destruct (getenv env (u "CONFLUENCE_USER_NAME")) as [[| c user_name] |];
    try reflexivity.
  cbn [orb default].
  destruct (urls_txt env) as [| | lines]; try reflexivity.
  - unfold bind, print, file_missing_messages, with_stdout. cbn.
    now rewrite <- app_assoc.
  - unfold urls_of, blank.
    destruct (map (strip isspace) (List.filter _ lines)); reflexivity.
Qed.

End Main.

(* ===================================================================== *)
(** ** What a fetched page contributes *)
(* ===================================================================== *)

Lemma get_default obj k d x : Py.get obj k d = Ok x -> x = default d (member k obj).
Proof. destruct obj; try discriminate. cbn. now intros [= <-]. Qed.

(** The link and the space of a view, in terms of the members of the page. *)
Lemma view_page_link page url v :
  view_page page url = Ok v ->
  exists links, links = default Py.empty_dict (member (u "_links") page) /\
                Py.get links (u "webui") (JStr url) = Ok (link v).
Proof.
  unfold view_page. intros Hv.
  repeat match type of Hv with
         | and_then ?r _ = Ok _ =>
           let E := fresh "E" in
           destruct r eqn:E; [cbn [and_then] in Hv | discriminate Hv]
         end.
  injection Hv as <-. cbn [link].
  eexists. split; [| eassumption]. eapply get_default. eassumption.
Qed.

Lemma view_page_space page url v :
  view_page page url = Ok v ->
  exists space_info space_key,
    space_info = default Py.empty_dict (member (u "space") page) /\
    Py.get space_info (u "key") JNull = Ok space_key /\
    Py.get space_info (u "name") space_key = Ok (space_name v).
Proof.
  unfold view_page. intros Hv.
  repeat match type of Hv with
         | and_then ?r _ = Ok _ =>
           let E := fresh "E" in
           destruct r eqn:E; [cbn [and_then] in Hv | discriminate Hv]
         end.
  injection Hv as <-. cbn [space_name].
  do 2 eexists. split; [| split; eassumption]. eapply get_default. eassumption.
Qed.

Lemma link_without_webui page url v :
  view_page page url = Ok v ->
  member2 (u "_links") (u "webui") page = None ->
  link v = JStr url.
Proof.
  intros Hv Hm. apply view_page_link in Hv as (links & -> & Hg).
  apply get_default in Hg. rewrite Hg. unfold member2 in Hm.
  destruct (member (u "_links") page) as [inner |]; cbn [default from_option id];
    [now rewrite Hm | reflexivity].
Qed.

Lemma space_without_name page url v :
  view_page page url = Ok v ->
  member2 (u "space") (u "name") page = None ->
  space_name v = default JNull (member2 (u "space") (u "key") page).
Proof.
  intros Hv Hm. apply view_page_space in Hv as (info & key & -> & Hk & Hn).
  apply get_default in Hk, Hn. rewrite Hn, Hk. unfold member2 in *.
  destruct (member (u "space") page) as [inner |]; cbn [default from_option id];
    [now rewrite Hm | reflexivity].
Qed.

(* ===================================================================== *)
(** ** Properties of the specification *)
(* ===================================================================== *)

Section Claims.

Context {lib : PyLib} {laws : PyLibLaws lib} (env : Env).

(** C1, amended.  Two calls of [get_display_name] with the same non-empty
    account id against an empty cache send exactly one request and return
    the same name, provided that request is answered with status 200 and
    a JSON object; and in a batch run no account id is looked up with
    such an answer more than once.  (A lookup that is refused is not
    cached: see [refused_lookup_is_retried].) *)
Theorem one_request_per_answered_id :
  (forall account_id session base_url cache w r fields,
      Py.truthy account_id = true ->
      Py.hashable account_id = true ->
      heap w !! cache = Some [] ->
      net env (length (sent w)) (user_lookup session base_url account_id) = Answered r ->
      status_code r = 200 ->
      json_body r = Some (JObj fields) ->
      let name := default account_id (Py.assoc (u "displayName") fields) in
      let first := get_display_name env account_id session base_url cache w in
      let second := get_display_name env account_id session base_url cache (snd first) in
      fst first = Ok name /\ fst second = Ok name /\
      sent (snd second) = sent w ++ [lookup_call session base_url account_id (Answered r)])
  /\
  (forall page_urls session w,
      exists new,
        sent (snd (process_pages_from_urls env page_urls session w)) = sent w ++ new /\
        forall account_id, (lookups_200 account_id new <= 1)%nat).
Proof.
  split.
  - intros. now apply lookup_twice.
  - intros. apply batch_lookups_once.
Qed.


(** C3.  When the page of a URL is fetched, the text appended to the
    output file is the five lines title (as H1), URL, space, author and
    last update, in this order, then an empty line, the converted body and
    a last empty line. *)
Theorem page_block_layout session md_file cache url w base_url page_id page w1
    v text name w2 :
  fst (parse_confluence_url url w) = Ok (Some (base_url, page_id)) ->
  get_page env page_id base_url session None w = (Ok page, w1) ->
  Py.truthy page = true ->
  view_page page url = Ok v ->
  md (html v) = Ok text ->
  get_display_name env (account_id v) session base_url cache w1 = (Ok name, w2) ->
  let out := process_url env session md_file cache url w in
  fst out = Ok tt /\
  files (snd out) =
    <[md_file := default [] (files w !! md_file) ++
        join_lines [ u "# " ++ py_str (title v);
                     u "URL: " ++ py_str (link v);
                     u "スペース: " ++ py_str (space_name v);
                     u "作成者: " ++ py_str name;
                     u "最終更新日: " ++ py_str (last_updated v);
                     [];
                     text;
                     [] ]]> (files w).
Proof.
  intros Hp Hf Ht Hv Hmd Hn.
  apply (rendered_appends env session md_file cache url w).
  exists base_url, page_id, page, w1, v, text, name, w2. repeat split; assumption.
Qed.

(** C4.  When the user lookup is answered with a status other than 200,
    [get_display_name] returns the account id as it is and leaves every
    dictionary as it was, so that the next call with the same id sends the
    request again. *)
Theorem refused_lookup_is_retried account_id session base_url cache w r :
  Py.truthy account_id = true ->
  Py.dict_contains account_id (dict_at cache w) = Ok false ->
  net env (length (sent w)) (user_lookup session base_url account_id) = Answered r ->
  status_code r <> 200 ->
  let first := get_display_name env account_id session base_url cache w in
  let second := get_display_name env account_id session base_url cache (snd first) in
  fst first = Ok account_id /\
  heap (snd first) = heap w /\
  sent (snd first) = sent w ++ [lookup_call session base_url account_id (Answered r)] /\
  sent (snd second)
  = sent (snd first)
    ++ [lookup_call session base_url account_id
          (net env (length (sent (snd first))) (user_lookup session base_url account_id))].
Proof.
  intros Ht Hc Hn Hs first second.
  assert (E1 : first =
    (Ok account_id,
     say (lookup_warning account_id r)
       (with_sent w (sent w ++ [lookup_call session base_url account_id (Answered r)])))).
  { unfold first. rewrite get_display_name_eq, Ht, Hc. cbn [negb]. cbv zeta. rewrite Hn.
    apply Z.eqb_neq in Hs. rewrite Hs. reflexivity. }
  rewrite E1. cbn [fst snd]. repeat split.
  unfold second. rewrite E1. cbn [snd].
  rewrite get_display_name_sends; [reflexivity | exact Ht | exact Hc].
Qed.

(** C5, amended.  With an empty or absent account id (any value Python
    counts as false) [get_display_name] sends no request, changes nothing
    and returns the fixed label, whose text is "不明な作成者". *)
Theorem no_account_id_no_request account_id session base_url cache w :
  Py.truthy account_id = false ->
  get_display_name env account_id session base_url cache w
  = (Ok (JStr (u "不明な作成者")), w).
Proof. intros H. rewrite get_display_name_eq, H. reflexivity. Qed.

(** C7.  When the path of the URL contains [/pages/] followed by digits
    (the leftmost such place, the digits up to the first other character)
    and the query shape has not yielded an id, the parser returns exactly
    these digits as the page id. *)
Theorem path_shape_page_id url w p before digits rest :
  urlparse url = Ok p ->
  (forall page_id, viewpage_page_id p <> Ok (Some page_id)) ->
  path p = before ++ u "/pages/" ++ digits ++ rest ->
  digits <> [] ->
  forallb isdigit digits = true ->
  stops isdigit rest = true ->
  (forall i, (i < length before)%nat -> pages_digit_here (drop i (path p)) = false) ->
  parse_confluence_url url w
  = (Ok (Some (scheme p ++ u "://" ++ netloc p ++ u "/wiki", digits)), w).
Proof.
  intros Hu Hq Hpath Hne Hd Hr Hleft.
  rewrite parse_confluence_url_eq, Hu.
  destruct (viewpage_page_id_returns p) as [[id |] Hv]; [now apply Hq in Hv |].
  rewrite Hv. rewrite Hpath in Hleft |- *.
  now rewrite (search_leftmost before digits rest Hleft Hne Hd Hr).
Qed.

Lemma credentials_present user_name api_token :
  credentials env = Some (user_name, api_token) ->
  missing (getenv env (u "CONFLUENCE_API_TOKEN")) = false /\
  missing (getenv env (u "CONFLUENCE_USER_NAME")) = false.
Proof.
  unfold credentials, missing.
  destruct (getenv env (u "CONFLUENCE_USER_NAME")) as [[| c x] |]; try discriminate.
  destruct (getenv env (u "CONFLUENCE_API_TOKEN")) as [[| d y] |]; try discriminate.
  auto.
Qed.

(** X19.  When a credential is missing, or the URL file is missing, or it
    holds no URL once blank lines are dropped, [main] prints a message and
    returns before any request is sent and before any file is written.  In
    the batch, a URL the parser rejects and a page whose fetch fails are
    skipped: nothing is written for them and the loop goes on with the
    next URL. *)
Theorem configuration_errors_abort :
  (forall w, configuration_error env ->
     exists messages, messages <> [] /\
       main env w = (Ok tt, with_stdout w (stdout w ++ messages))) /\
  (forall session md_file cache url rest w,
     fst (parse_confluence_url url w) = Ok None \/ page_fetch_fails env session url w ->
     let body := process_url env session md_file cache in
     fst (body url w) = Ok tt /\
     files (snd (body url w)) = files w /\
     for_each (url :: rest) body w = for_each rest body (snd (body url w))).
Proof.
  split.
  - intros w Hc. rewrite main_eq.
    destruct (credentials env) as [[user_name api_token] |] eqn:Ecr.
    + apply credentials_present in Ecr as [Ht Hu].
      destruct Hc as [Hc | [Hc | [Hc | (lines & Hc & Hb)]]]; try congruence.
      * rewrite Hc. exists file_missing_messages. split; [discriminate | reflexivity].
      * rewrite Hc, (urls_of_blank lines Hb).
        exists [no_urls_message]. split; [discriminate | reflexivity].
    + exists [credentials_message]. split; [discriminate | reflexivity].
  - intros session md_file cache url rest w H body.
    assert (Hskip : fst (body url w) = Ok tt /\ files (snd (body url w)) = files w).
    { destruct H as [H | H].
      - apply (rejected_url_skips env session md_file cache) in H as (R & F & _). auto.
      - apply (failed_fetch_skips env session md_file cache) in H as (R & F & _). auto. }
    destruct Hskip as [R F]. repeat split; [exact R | exact F |].
    now apply for_each_continue.
Qed.

(** C9.  When the fetched page has no [_links.webui] member, the URL line
    of its block carries the URL read from the list. *)
Theorem link_falls_back_to_input_url session md_file cache url w base_url page_id page w1
    v text name w2 :
  fst (parse_confluence_url url w) = Ok (Some (base_url, page_id)) ->
  get_page env page_id base_url session None w = (Ok page, w1) ->
  Py.truthy page = true ->
  view_page page url = Ok v ->
  md (html v) = Ok text ->
  get_display_name env (account_id v) session base_url cache w1 = (Ok name, w2) ->
  member2 (u "_links") (u "webui") page = None ->
  files (snd (process_url env session md_file cache url w)) =
    <[md_file := default [] (files w !! md_file) ++
        join_lines [ u "# " ++ py_str (title v);
                     u "URL: " ++ url;
                     u "スペース: " ++ py_str (space_name v);
                     u "作成者: " ++ py_str name;
                     u "最終更新日: " ++ py_str (last_updated v);
                     [];
                     text;
                     [] ]]> (files w).
Proof.
  intros Hp Hf Ht Hv Hmd Hn Hm.
  pose proof (link_without_webui page url v Hv Hm) as Hl.
  assert (R : page_renders env session cache url w (join_lines (block_lines v name text))).
  { exists base_url, page_id, page, w1, v, text, name, w2. repeat split; assumption. }
  apply (rendered_appends env session md_file) in R as [_ F].
  rewrite F. unfold block_lines. rewrite Hl. reflexivity.
Qed.

(** C10.  When the fetched page has no [space.name] member, the space
    line of its block carries [space.key]; when that is absent too, the
    line carries Python's [None]. *)
Theorem space_falls_back_to_key session md_file cache url w base_url page_id page w1
    v text name w2 :
  fst (parse_confluence_url url w) = Ok (Some (base_url, page_id)) ->
  get_page env page_id base_url session None w = (Ok page, w1) ->
  Py.truthy page = true ->
  view_page page url = Ok v ->
  md (html v) = Ok text ->
  get_display_name env (account_id v) session base_url cache w1 = (Ok name, w2) ->
  member2 (u "space") (u "name") page = None ->
  files (snd (process_url env session md_file cache url w)) =
    <[md_file := default [] (files w !! md_file) ++
        join_lines [ u "# " ++ py_str (title v);
                     u "URL: " ++ py_str (link v);
                     u "スペース: " ++ match member2 (u "space") (u "key") page with
                                        | Some key => py_str key
                                        | None => u "None"
                                        end;
                     u "作成者: " ++ py_str name;
                     u "最終更新日: " ++ py_str (last_updated v);
                     [];
                     text;
                     [] ]]> (files w).
Proof.
  intros Hp Hf Ht Hv Hmd Hn Hm.
  pose proof (space_without_name page url v Hv Hm) as Hs.
  assert (R : page_renders env session cache url w (join_lines (block_lines v name text))).
  { exists base_url, page_id, page, w1, v, text, name, w2. repeat split; assumption. }
  apply (rendered_appends env session md_file) in R as [_ F].
  rewrite F. unfold block_lines. rewrite Hs.
  destruct (member2 (u "space") (u "key") page); reflexivity.
Qed.

End Claims.

Import Scenario.

Example friendly_run_files :
  map_to_list (files (snd (main (lib := RefLib.lib) friendly start)))
  = [ (out_file,
       join_lines [ u "# Spec"; u "URL: /spaces/ENG/pages/101/Spec";
                    u "スペース: Engineering"; u "作成者: Jane Doe";
                    u "最終更新日: 2 days ago"; []; u "<h1>Hi</h1>"; [] ]
       ++ join_lines [ u "# Notes"; u "URL: " ++ url_103; u "スペース: ENG";
                       u "作成者: Jane Doe"; u "最終更新日: N/A"; []; []; [] ]) ].
Proof. vm_compute. reflexivity. Qed.

Example friendly_run_requests :
  map (fun c => req_url (call_request c)) (sent (snd (main (lib := RefLib.lib) friendly start)))
  = [content_url (u "101"); user_url jane; content_url (u "102"); content_url (u "103")].
Proof. vm_compute. reflexivity. Qed.

(* ===================================================================== *)
(** ** The properties on concrete runs *)
(* ===================================================================== *)

(** Two calls for a known user: one request, the same name twice. *)
Lemma one_request_per_answered_id_witness :
  let first := get_display_name (lib := RefLib.lib) friendly (JStr jane) session wiki 0 start in
  let second :=
    get_display_name (lib := RefLib.lib) friendly (JStr jane) session wiki 0 (snd first) in
  fst first = Ok (default (JStr jane) (Py.assoc (u "displayName") [(u "displayName", JStr (u "Jane Doe"))]))
  /\ fst second = Ok (default (JStr jane) (Py.assoc (u "displayName") [(u "displayName", JStr (u "Jane Doe"))]))
  /\ sent (snd second)
     = sent start
       ++ [lookup_call (lib := RefLib.lib) session wiki (JStr jane) (answer 200 jane_doe)].
Proof.
  apply (proj1 (@one_request_per_answered_id RefLib.lib friendly)
           (JStr jane) session wiki 0%nat start
           {| status_code := 200; json_body := Some jane_doe |}
           [(u "displayName", JStr (u "Jane Doe"))]);
    vm_compute; reflexivity.
Defined.

(** C1 as stated fails: a refused lookup is sent again by the second call. *)
Lemma refused_lookup_two_requests :
  let first := get_display_name (lib := RefLib.lib) grumpy (JStr jane) session wiki 0 start in
  let second :=
    get_display_name (lib := RefLib.lib) grumpy (JStr jane) session wiki 0 (snd first) in
  heap start !! 0%nat = Some [] /\
  Py.truthy (JStr jane) = true /\
  sent (snd second)
  = [ lookup_call (lib := RefLib.lib) session wiki (JStr jane) (answer 404 not_found);
      lookup_call (lib := RefLib.lib) session wiki (JStr jane) (answer 404 not_found) ].
Proof. vm_compute. repeat split. Qed.



Lemma page_block_layout_witness :
  let out := process_url (lib := RefLib.lib) friendly session out_file 0 url_101 start in
  fst out = Ok tt /\
  files (snd out) =
    <[out_file := default [] (files start !! out_file) ++
        join_lines [ u "# " ++ py_str (H := RefLib.lib) (title spec_view);
                     u "URL: " ++ py_str (H := RefLib.lib) (link spec_view);
                     u "スペース: " ++ py_str (H := RefLib.lib) (space_name spec_view);
                     u "作成者: " ++ py_str (H := RefLib.lib) (JStr (u "Jane Doe"));
                     u "最終更新日: " ++ py_str (H := RefLib.lib) (last_updated spec_view);
                     [];
                     u "<h1>Hi</h1>";
                     [] ]]> (files start).
Proof.
  apply (@page_block_layout RefLib.lib friendly session out_file 0%nat url_101 start
           wiki (u "101") spec_page
           (snd (get_page friendly (u "101") wiki session None start))
           spec_view (u "<h1>Hi</h1>") (JStr (u "Jane Doe"))
           (snd (get_display_name (lib := RefLib.lib) friendly (JStr jane) session wiki 0
                   (snd (get_page friendly (u "101") wiki session None
                           start)))));
    vm_compute; reflexivity.
Defined.

Lemma refused_lookup_is_retried_witness :
  let first := get_display_name (lib := RefLib.lib) grumpy (JStr jane) session wiki 0 start in
  let second :=
    get_display_name (lib := RefLib.lib) grumpy (JStr jane) session wiki 0 (snd first) in
  fst first = Ok (JStr jane) /\
  heap (snd first) = heap start /\
  sent (snd first)
  = sent start ++ [lookup_call (lib := RefLib.lib) session wiki (JStr jane) (answer 404 not_found)] /\
  sent (snd second)
  = sent (snd first)
    ++ [lookup_call (lib := RefLib.lib) session wiki (JStr jane)
          (net grumpy (length (sent (snd first)))
             (user_lookup (lib := RefLib.lib) session wiki (JStr jane)))].
Proof.
  apply (@refused_lookup_is_retried RefLib.lib grumpy (JStr jane) session wiki 0%nat start
           {| status_code := 404; json_body := Some not_found |}).
  - vm_compute. reflexivity.
  - vm_compute. reflexivity.
  - vm_compute. reflexivity.
  - vm_compute. discriminate.
Defined.

Lemma no_account_id_no_request_witness :
  get_display_name (lib := RefLib.lib) friendly JNull session wiki 0 start
  = (Ok (JStr (u "不明な作成者")), start)
  /\ get_display_name (lib := RefLib.lib) friendly (JStr []) session wiki 0 start
     = (Ok (JStr (u "不明な作成者")), start).
Proof.
  split; apply (@no_account_id_no_request RefLib.lib friendly); reflexivity.
Defined.

(** C5 as stated fails on the text of the label. *)
Lemma fallback_label_is_not_english :
  fst (get_display_name (lib := RefLib.lib) friendly JNull session wiki 0 start)
  <> Ok (JStr (u "unknown creator")).
Proof. vm_compute. discriminate. Qed.

Lemma path_shape_page_id_witness :
  parse_confluence_url (lib := RefLib.lib) url_101 start
  = (Ok (Some (u "https" ++ u "://" ++ u "example.atlassian.net" ++ u "/wiki", u "101")), start).
Proof.
  apply (@path_shape_page_id RefLib.lib RefLib_laws url_101 start
           {| scheme := u "https"; netloc := u "example.atlassian.net";
              path := u "/wiki/spaces/ENG/pages/101/Spec"; query := [] |}
           (u "/wiki/spaces/ENG") (u "101") (u "/Spec")).
  - vm_compute. reflexivity.
  - intros page_id. vm_compute. discriminate.
  - vm_compute. reflexivity.
  - vm_compute. discriminate.
  - vm_compute. reflexivity.
  - vm_compute. reflexivity.
  - intros i Hi.
    do 16 (destruct i as [| i]; [vm_compute; reflexivity |]).
    vm_compute in Hi. lia.
Defined.

Lemma configuration_errors_abort_witness :
  exists messages, messages <> [] /\
    main (lib := RefLib.lib) no_token start
    = (Ok tt, with_stdout start (stdout start ++ messages)).
Proof.
  apply (proj1 (@configuration_errors_abort RefLib.lib no_token) start).
  left. vm_compute. reflexivity.
Defined.

(** A refused user lookup does not skip the page: its block is written
    with the raw account id as the author. *)
Lemma refused_lookup_page_is_written :
  let out := main (lib := RefLib.lib) grumpy start in
  fst out = Ok tt /\
  map call_result (sent (snd out)) = [answer 200 bare_page; answer 404 not_found] /\
  files (snd out) !! out_file
  = Some (join_lines [ u "# Notes"; u "URL: " ++ url_103; u "スペース: ENG";
                       u "作成者: " ++ jane; u "最終更新日: N/A"; []; []; [] ]).
Proof. vm_compute. repeat split. Qed.

Lemma link_falls_back_to_input_url_witness :
  files (snd (process_url (lib := RefLib.lib) friendly session out_file 0 url_103 start)) =
    <[out_file := default [] (files start !! out_file) ++
        join_lines [ u "# " ++ py_str (H := RefLib.lib) (title bare_view);
                     u "URL: " ++ url_103;
                     u "スペース: " ++ py_str (H := RefLib.lib) (space_name bare_view);
                     u "作成者: " ++ py_str (H := RefLib.lib) (JStr (u "Jane Doe"));
                     u "最終更新日: " ++ py_str (H := RefLib.lib) (last_updated bare_view);
                     [];
                     [];
                     [] ]]> (files start).
Proof.
  apply (@link_falls_back_to_input_url RefLib.lib friendly session out_file 0%nat url_103 start
           wiki (u "103") bare_page
           (snd (get_page friendly (u "103") wiki session None start))
           bare_view [] (JStr (u "Jane Doe"))
           (snd (get_display_name (lib := RefLib.lib) friendly (JStr jane) session wiki 0
                   (snd (get_page friendly (u "103") wiki session None start)))));
    vm_compute; reflexivity.
Defined.

Lemma space_falls_back_to_key_witness :
  files (snd (process_url (lib := RefLib.lib) friendly session out_file 0 url_103 start)) =
    <[out_file := default [] (files start !! out_file) ++
        join_lines [ u "# " ++ py_str (H := RefLib.lib) (title bare_view);
                     u "URL: " ++ py_str (H := RefLib.lib) (link bare_view);
                     u "スペース: " ++ match member2 (u "space") (u "key") bare_page with
                                        | Some key => py_str (H := RefLib.lib) key
                                        | None => u "None"
                                        end;
                     u "作成者: " ++ py_str (H := RefLib.lib) (JStr (u "Jane Doe"));
                     u "最終更新日: " ++ py_str (H := RefLib.lib) (last_updated bare_view);
                     [];
                     [];
                     [] ]]> (files start).
Proof.
  apply (@space_falls_back_to_key RefLib.lib friendly session out_file 0%nat url_103 start
           wiki (u "103") bare_page
           (snd (get_page friendly (u "103") wiki session None start))
           bare_view [] (JStr (u "Jane Doe"))
           (snd (get_display_name (lib := RefLib.lib) friendly (JStr jane) session wiki 0
                   (snd (get_page friendly (u "103") wiki session None start)))));
    vm_compute; reflexivity.
Defined.

(** A page with no member but its id: every fallback at once. *)
Example all_fallbacks :
  files (snd (process_url (lib := RefLib.lib) friendly session out_file 0 url_104 start))
  !! out_file
  = Some (join_lines [ u "# No Title"; u "URL: " ++ url_104; u "スペース: None";
                       u "作成者: 不明な作成者"; u "最終更新日: N/A"; []; []; [] ]).
Proof. vm_compute. reflexivity. Qed.

(** A lookup that cannot connect ends the run: [get_display_name] has no
    handler around its request, unlike [get_page]. *)
Example lookup_without_connection :
  fst (main (lib := RefLib.lib)
         (run_of [(content_url (u "103"), answer 200 bare_page)]
                 (FileLines [url_103; url_101]) (Some (u "token")))
         start)
  = Raise (RequestException ConnectionError).
Proof. vm_compute. reflexivity. Qed.

(* ===================================================================== *)
(** ** Further properties: the page fetch and the resolver *)
(* ===================================================================== *)

Section FetchAndResolve.

Context {lib : PyLib} (env : Env).

(** X1.  [get_page] never raises and sends exactly one request.  It
    returns the JSON body when the answer has a status outside 400..599 and
    a JSON body (a 3xx answer included), and [None] on a transport error, a
    4xx or 5xx status or a body that is not JSON; it touches neither the
    files nor the dictionaries. *)
Theorem get_page_outcome page_id base_url session w :
  let answer := net env (length (sent w)) (page_request session base_url page_id) in
  let out := get_page env page_id base_url session None w in
  fst out = Ok (page_of_answer answer) /\
  sent (snd out) = sent w ++ [fetch_call session base_url page_id answer] /\
  files (snd out) = files w /\ heap (snd out) = heap w.
Proof.
  cbv zeta. rewrite get_page_eq. cbv zeta. unfold page_of_answer.
  destruct (net env (length (sent w)) (page_request session base_url page_id)) as [e | r];
    [cbn; auto |].
  destruct ((400 <=? status_code r) && (status_code r <? 600)); [cbn; auto |].
  destruct (json_body r); cbn; auto.
Qed.

Lemma cache_hit account_id session base_url cache w name :
  Py.truthy account_id = true ->
  Py.hashable account_id = true ->
  Py.dict_find account_id (dict_at cache w) = Some name ->
  get_display_name env account_id session base_url cache w = (Ok name, w).
Proof.
  intros Ht Hh Hf. rewrite get_display_name_eq, Ht. cbn [negb].
  unfold Py.dict_contains. rewrite Hh, Hf.
  rewrite bool_decide_eq_true_2 by eauto. reflexivity.
Qed.

(** X2.  A cached account id is answered from the cache: the stored value
    is returned and the world is left as it is (no request, no line),
    whatever the base URL and the session. *)
Theorem cached_name_is_returned account_id session base_url cache w name :
  Py.truthy account_id = true ->
  Py.hashable account_id = true ->
  Py.dict_find account_id (dict_at cache w) = Some name ->
  get_display_name env account_id session base_url cache w = (Ok name, w).
Proof. apply cache_hit. Qed.

Lemma dict_store_absent k v d :
  Py.dict_find k d = None -> Py.dict_store k v d = d ++ [(k, v)].
Proof.
  induction d as [| [k' v'] d IH]; [reflexivity |].
  cbn [Py.dict_find Py.dict_store app].
  destruct (Py.key_eqb k k'); [discriminate |]. intros H. now rewrite IH.
Qed.

Lemma dict_find_app_some k d d' v :
  Py.dict_find k d = Some v -> Py.dict_find k (d ++ d') = Some v.
Proof.
  induction d as [| [k' v'] d IH]; [discriminate |].
  cbn [Py.dict_find app]. destruct (Py.key_eqb k k'); auto.
Qed.

(** X3.  A lookup answered with status 200 and a JSON object stores what
    it returns: the [displayName] member, or the account id itself when
    the member is missing.  Afterwards the id is served from the cache for
    any base URL without a request, and every entry that was in the cache
    is still there with its value. *)
Theorem answered_lookup_is_stored account_id session base_url cache w r fields :
  Py.truthy account_id = true ->
  Py.dict_contains account_id (dict_at cache w) = Ok false ->
  (cache < length (heap w))%nat ->
  net env (length (sent w)) (user_lookup session base_url account_id) = Answered r ->
  status_code r = 200 ->
  json_body r = Some (JObj fields) ->
  let name := default account_id (Py.assoc (u "displayName") fields) in
  let out := get_display_name env account_id session base_url cache w in
  fst out = Ok name /\
  Py.dict_find account_id (dict_at cache (snd out)) = Some name /\
  (forall k v, Py.dict_find k (dict_at cache w) = Some v ->
               Py.dict_find k (dict_at cache (snd out)) = Some v) /\
  (forall other_session other_base,
      get_display_name env account_id other_session other_base cache (snd out)
      = (Ok name, snd out)).
Proof.
  intros Ht Hc Hlt Hn Hs Hj name out.
  pose proof (contains_hashable _ _ _ Hc) as Hh.
  pose proof (contains_false_find _ _ Hc) as Hmiss.
  assert (E : out =
    (Ok name,
     with_heap (with_sent w (sent w ++ [lookup_call session base_url account_id (Answered r)]))
       (<[cache := Py.dict_store account_id name (dict_at cache w)]> (heap w)))).
  { unfold out. rewrite get_display_name_eq, Ht, Hc. cbn [negb]. cbv zeta.
    rewrite Hn, Hs. cbn [Z.eqb Pos.eqb]. rewrite Hj. reflexivity. }
  assert (Hd : dict_at cache (snd out) = Py.dict_store account_id name (dict_at cache w)).
  { rewrite E. unfold dict_at. cbn [snd heap with_heap].
    now rewrite list_lookup_insert_eq by exact Hlt. }
  assert (Hfound : Py.dict_find account_id (dict_at cache (snd out)) = Some name).
  { rewrite Hd. now apply dict_find_stored. }
  repeat split.
  - now rewrite E.
  - exact Hfound.
  - intros k v Hk. rewrite Hd, (dict_store_absent _ _ _ Hmiss). now apply dict_find_app_some.
  - intros other_session other_base. now apply cache_hit.
Qed.

(** X4.  [get_display_name] has no handler of its own.  A lookup that
    cannot connect raises the transport's exception, and a 200 answer
    whose body is not JSON raises too; in both cases the request is in the
    log and no dictionary has changed.  An account id that is a non-empty
    list or dict raises [TypeError] before any request. *)
Theorem lookup_exceptions_escape account_id session base_url cache w :
  Py.truthy account_id = true ->
  let answer := net env (length (sent w)) (user_lookup session base_url account_id) in
  let logged := with_sent w (sent w ++ [lookup_call session base_url account_id answer]) in
  let out := get_display_name env account_id session base_url cache w in
  (Py.hashable account_id = false -> out = (Raise TypeError, w)) /\
  (Py.dict_contains account_id (dict_at cache w) = Ok false ->
   (forall e, answer = Failed e -> out = (Raise (RequestException e), logged)) /\
   (forall r, answer = Answered r -> status_code r = 200 -> json_body r = None ->
              out = (Raise (RequestException InvalidJSON), logged))).
Proof.
  intros Ht answer logged out. unfold out. rewrite get_display_name_eq, Ht. cbn [negb].
  split.
  - intros Hh. unfold Py.dict_contains. now rewrite Hh.
  - intros Hc. rewrite Hc. cbv zeta. fold answer. split.
    + intros e ->. reflexivity.
    + intros r -> Hs Hj. rewrite Hs. cbn [Z.eqb Pos.eqb]. now rewrite Hj.
Qed.

(** Whatever the call does, an entry of the cache keeps its value:
    [get_display_name] only ever adds an id that was not there. *)
Lemma cache_entry_kept account_id session base_url cache w k v :
  Py.dict_find k (dict_at cache w) = Some v ->
  Py.dict_find k
    (dict_at cache (snd (get_display_name env account_id session base_url cache w)))
  = Some v.
Proof.
  intros Hk. rewrite get_display_name_eq.
  destruct (negb (Py.truthy account_id)); [exact Hk |].
  destruct (Py.dict_contains account_id (dict_at cache w)) as [[|] | e] eqn:Ec;
    try exact Hk.
  pose proof (contains_false_find _ _ Ec) as Hmiss. cbv zeta.
  destruct (net env _ _) as [e | r]; [exact Hk |].
  destruct (status_code r =? 200); [| exact Hk].
  destruct (json_body r) as [body |]; [| exact Hk].
  destruct (Py.get body (u "displayName") account_id) as [name | e]; [| exact Hk].
  cbn [snd]. unfold dict_at at 1. cbn [heap with_heap with_sent].
  destruct (decide (cache < length (heap w))%nat) as [Hlt | Hge].
  - rewrite list_lookup_insert_eq by exact Hlt. cbn [default from_option id].
    change (default [] (heap (with_sent w (sent w ++ [lookup_call session base_url
              account_id (Answered r)])) !! cache)) with (dict_at cache w).
    rewrite (dict_store_absent _ _ _ Hmiss). now apply dict_find_app_some.
  - rewrite list_insert_ge by lia. exact Hk.
Qed.

End FetchAndResolve.

(* ===================================================================== *)
(** ** Further properties: the parser *)
(* ===================================================================== *)

Section ParserEdges.

Context {lib : PyLib}.

(** X6.  The query shape wins over the path shape: when the path contains
    [viewpage.action] and the query has a [pageId] field whose first value
    is not empty, that first value is the page id, whatever digits the path
    holds after [/pages/] and whatever further values the field has. *)
Theorem query_shape_wins url w p page_id others :
  urlparse url = Ok p ->
  contains (u "viewpage.action") (path p) = true ->
  Py.assoc (u "pageId") (parse_qs (query p)) = Some (page_id :: others) ->
  page_id <> [] ->
  parse_confluence_url url w
  = (Ok (Some (scheme p ++ u "://" ++ netloc p ++ u "/wiki", page_id)), w).
Proof.
  intros Hu Hc Hq Hne. rewrite parse_confluence_url_eq, Hu.
  unfold viewpage_page_id, first_pageId. rewrite Hc, Hq.
  destruct page_id; [congruence | reflexivity].
Qed.

Lemma search_found_here c s :
  pages_digit_here (c :: s) = true -> search_pages_digits (c :: s) <> None.
Proof.
  unfold pages_digit_here. cbn [search_pages_digits].
  destruct (strip_prefix (u "/pages/") (c :: s)) as [[| x after] |]; try discriminate.
  cbn [take_while]. intros ->. discriminate.
Qed.

Lemma no_match_in_empty : pages_digit_here [] = false.
Proof. unfold pages_digit_here. vm_compute. reflexivity. Qed.

(** The regex finds nothing exactly when no position of the text starts
    [/pages/] followed by a digit. *)
Lemma search_none_iff s :
  search_pages_digits s = None <->
  forall i, pages_digit_here (drop i s) = false.
Proof.
  induction s as [| c s IH].
  - split; [| reflexivity]. intros _ i. destruct i; apply no_match_in_empty.
  - split.
    + intros H. destruct (pages_digit_here (c :: s)) eqn:Eh.
      * now apply search_found_here in Eh.
      * rewrite (search_skips c s Eh) in H. intros [| i]; [exact Eh |].
        cbn [drop]. now apply IH.
    + intros H. rewrite (search_skips c s (H 0%nat)). apply IH.
      intros i. exact (H (S i)).
Qed.

(** X7.  When the query shape yields no id, the URL is rejected exactly
    when no position of its path starts [/pages/] followed by a digit. *)
Theorem rejected_iff_no_pages_digit url w p :
  urlparse url = Ok p ->
  viewpage_page_id p = Ok None ->
  (fst (parse_confluence_url url w) = Ok None <->
   forall i, pages_digit_here (drop i (path p)) = false).
Proof.
  intros Hu Hv. rewrite parse_confluence_url_eq, Hu, Hv, <- search_none_iff.
  destruct (search_pages_digits (path p)); cbn [fst]; split; congruence.
Qed.

Lemma parse_frame url w :
  (exists r, fst (parse_confluence_url url w) = Ok r) /\
  sent (snd (parse_confluence_url url w)) = sent w /\
  files (snd (parse_confluence_url url w)) = files w /\
  heap (snd (parse_confluence_url url w)) = heap w.
Proof.
  rewrite parse_confluence_url_eq.
  destruct (urlparse url) as [p | e]; [| cbn; eauto 6].
  destruct (viewpage_page_id p) as [[id |] | e]; try (cbn; eauto 6).
  destruct (search_pages_digits (path p)); cbn; eauto 6.
Qed.

(** X8.  The parser never raises, sends nothing and writes no file or
    dictionary; it prints exactly one line when it rejects the URL (also
    when [urlparse] raises) and none when it accepts it. *)
Theorem parser_only_prints url w :
  let out := parse_confluence_url url w in
  sent (snd out) = sent w /\ files (snd out) = files w /\ heap (snd out) = heap w /\
  match fst out with
  | Ok (Some _) => stdout (snd out) = stdout w
  | Ok None => exists l, stdout (snd out) = stdout w ++ [l]
  | Raise _ => False
  end.
Proof.
  cbv zeta. rewrite parse_confluence_url_eq.
  destruct (urlparse url) as [p | e]; [| cbn; eauto 6].
  destruct (viewpage_page_id p) as [[id |] | e]; try (cbn; eauto 6).
  destruct (search_pages_digits (path p)); cbn; eauto 6.
Qed.

End ParserEdges.

(* ===================================================================== *)
(** ** Further properties: one URL *)
(* ===================================================================== *)

Section UrlEdges.

Context {lib : PyLib} (env : Env).

(** X9.  A page whose JSON is empty or otherwise false for Python (an
    empty object, [null], an empty list) counts as not fetched even though
    the request succeeded: the URL is skipped with a notice, nothing is
    written and no user lookup is sent. *)
Theorem empty_page_is_skipped session md_file cache url w base_url page_id r page :
  fst (parse_confluence_url url w) = Ok (Some (base_url, page_id)) ->
  net env (length (sent w)) (page_request session base_url page_id) = Answered r ->
  (400 <=? status_code r) && (status_code r <? 600) = false ->
  json_body r = Some page ->
  Py.truthy page = false ->
  process_url env session md_file cache url w
  = (Ok tt,
     say (not_fetched_notice url)
       (with_sent w (sent w ++ [fetch_call session base_url page_id (Answered r)]))).
Proof.
  intros Hp Hn Hs Hj Ht.
  apply (process_url_not_fetched env session md_file cache url w base_url page_id page);
    [exact Hp | | exact Ht].
  rewrite get_page_eq. cbv zeta. now rewrite Hn, Hs, Hj.
Qed.

(** X10.  A fetched page that is true for Python but not an object (a
    non-empty list, a string, a number) ends the run: the first [.get]
    raises [AttributeError], which nothing catches; only the fetch is in
    the log and nothing is written. *)
Theorem non_object_page_raises session md_file cache url w base_url page_id page w1 :
  fst (parse_confluence_url url w) = Ok (Some (base_url, page_id)) ->
  get_page env page_id base_url session None w = (Ok page, w1) ->
  Py.truthy page = true ->
  is_object page = false ->
  forall rest,
    for_each (url :: rest) (process_url env session md_file cache) w
    = (Raise AttributeError, w1).
Proof.
  intros Hp Hf Ht Ho rest. rewrite for_each_cons.
  assert (E : process_url env session md_file cache url w = (Raise AttributeError, w1)).
  { unfold process_url.
    rewrite (bind_ok _ _ _ _ _ (parse_accepts_silently _ _ _ Hp)).
    rewrite (parse_accepted_guard _ _ _ _ Hp).
    rewrite (bind_ok _ _ _ _ _ Hf). rewrite Ht.
    destruct page; try discriminate; reflexivity. }
  now rewrite E.
Qed.

End UrlEdges.

(* ===================================================================== *)
(** ** Further properties: whole runs *)
(* ===================================================================== *)

Lemma hoare_bind {A B} (P Q R E : world -> Prop) (m : M A) (k : A -> M B) :
  hoare P m Q E -> (forall a, hoare Q (k a) R E) -> hoare P (bind m k) R E.
Proof.
  intros Hm Hk w H. unfold bind. specialize (Hm w H).
  destruct (m w) as [[a | e] w']; [apply Hk, Hm | exact Hm].
Qed.

Lemma hoare_post {A} (P Q Q' E : world -> Prop) (m : M A) :
  hoare P m Q E -> (forall w, Q w -> Q' w) -> hoare P m Q' E.
Proof.
  intros Hm HQ w H. specialize (Hm w H). destruct (m w) as [[a | e] w']; auto.
Qed.

Section Runs.

Context {lib : PyLib} (env : Env).

(** The loop body keeps every invariant that ignores the console and that
    the fetch, the resolver and the write to the output file keep. *)
Lemma process_url_keeps (I E : world -> Prop) session md_file cache url :
  (forall w, I w -> E w) ->
  (forall w w', sent w' = sent w -> files w' = files w -> heap w' = heap w -> I w -> I w') ->
  (forall page_id base_url, keeps I E (get_page env page_id base_url session None)) ->
  (forall a base_url, keeps I E (get_display_name env a session base_url cache)) ->
  (forall s, keeps I E (file_write md_file s)) ->
  keeps I E (process_url env session md_file cache url).
Proof.
  intros HE Hquiet Hpage Hname Hwrite.
  assert (Hprint : forall s, keeps I E (print s)).
  { intros s w H. cbn. eapply Hquiet; [| | | exact H]; reflexivity. }
  assert (Hlift : forall A (r : result A), keeps I E (lift r)).
  { intros A r. apply keeps_lift, HE. }
  unfold process_url. apply keeps_bind.
  { intros w H. pose proof (parse_frame url w) as ([r0 Hr] & Hs & Hf & Hh).
    destruct (parse_confluence_url url w) as [[r | e] w']; cbn [fst snd] in *;
      [| discriminate].
    now apply (Hquiet w). }
  intros [[base_url page_id] |]; [| apply keeps_ret].
  destruct (is_empty page_id || is_empty base_url); [apply keeps_ret |].
  apply keeps_bind; [apply Hpage |]. intros page.
  destruct (Py.truthy page); [| apply Hprint].
  unfold extract_data_from_html.
  repeat first
    [ apply Hprint
    | apply keeps_bind;
      [ first [ apply Hlift | apply Hname | apply Hwrite | apply Hprint ]
      | intros ? ] ].
Qed.

(** X11.  A batch only ever appends to its output file.  Whatever the
    URLs and the answers, and also when the run ends with an exception,
    the output file exists afterwards and begins with the content it had
    before, and every other file is as it was. *)
Theorem batch_only_appends page_urls session w :
  appended_to (output_path env) (default [] (files w !! output_path env)) (files w)
    (snd (process_pages_from_urls env page_urls session w)).
Proof.
  set (p := output_path env). set (content := default [] (files w !! p)).
  set (I := appended_to p content (files w)).
  assert (Hfiles : forall w1 w2, files w2 = files w1 -> I w1 -> I w2).
  { intros w1 w2 Hf [suffix Hs]. exists suffix. now rewrite Hf. }
  assert (Hbody : forall url,
             keeps I I (process_url env session p (length (heap w)) url)).
  { intros url. apply process_url_keeps.
    - auto.
    - intros w1 w2 _ Hf _. now apply Hfiles.
    - intros page_id base_url w1 H.
      pose proof (get_page_frame env page_id base_url session w1) as (Hf & _ & _).
      destruct (get_page env page_id base_url session None w1) as [[a | e] w2];
        cbn [snd] in Hf; now apply (Hfiles w1).
    - intros a base_url w1 H.
      pose proof (get_display_name_files env a session base_url (length (heap w)) w1) as Hf.
      destruct (get_display_name env a session base_url (length (heap w)) w1)
        as [[x | e] w2]; cbn [snd] in Hf; now apply (Hfiles w1).
    - intros s w1 [suffix Hs]. cbn. exists (suffix ++ s). cbn [files with_files].
      rewrite Hs, lookup_insert_eq. cbn [default from_option id].
      now rewrite insert_insert_eq, app_assoc. }
  rewrite process_pages_from_urls_eq. fold p.
  pose proof (keeps_for_each I I page_urls _ Hbody (batch_start env w)) as H.
  assert (Hstart : I (batch_start env w)).
  { exists []. unfold batch_start. cbn [files with_files with_heap]. fold p content.
    now rewrite app_nil_r. }
  specialize (H Hstart).
  destruct (for_each page_urls _ (batch_start env w)) as [[[] | e] w']; exact H.
Qed.

(** X12.  A batch never touches the dictionaries that existed before it:
    it allocates one new dictionary, its cache, and all its stores go
    there.  Names cached by one batch are not seen by the next. *)
Theorem batch_uses_a_fresh_cache page_urls session w :
  one_new_dict (heap w) (snd (process_pages_from_urls env page_urls session w)).
Proof.
  set (I := one_new_dict (heap w)).
  assert (Hheap : forall w1 w2, heap w2 = heap w1 -> I w1 -> I w2).
  { intros w1 w2 Hh [Hl Hk]. split; rewrite Hh; assumption. }
  assert (Hbody : forall url,
             keeps I I (process_url env session (output_path env) (length (heap w)) url)).
  { intros url. apply process_url_keeps.
    - auto.
    - intros w1 w2 _ _ Hh. now apply Hheap.
    - intros page_id base_url w1 H.
      pose proof (get_page_frame env page_id base_url session w1) as (_ & Hh & _).
      destruct (get_page env page_id base_url session None w1) as [[a | e] w2];
        cbn [snd] in Hh; now apply (Hheap w1).
    - intros a base_url w1 H. rewrite get_display_name_eq.
      destruct (negb (Py.truthy a)); [exact H |].
      destruct (Py.dict_contains a (dict_at (length (heap w)) w1)) as [[|] | e];
        try exact H.
      cbv zeta. destruct (net env _ _) as [e | r]; [now apply (Hheap w1) |].
      destruct (status_code r =? 200); [| now apply (Hheap w1)].
      destruct (json_body r) as [body |]; [| now apply (Hheap w1)].
      destruct (Py.get body (u "displayName") a) as [name | e]; [| now apply (Hheap w1)].
      destruct H as [Hl Hk]. split; cbn [heap with_heap with_sent].
      + now rewrite length_insert.
      + intros l Hlt. rewrite list_lookup_insert_ne by lia. now apply Hk.
    - intros s w1 H. cbn. now apply (Hheap w1). }
  rewrite process_pages_from_urls_eq.
  pose proof (keeps_for_each I I page_urls _ Hbody (batch_start env w)) as H.
  assert (Hstart : I (batch_start env w)).
  { split; unfold batch_start; cbn [heap with_files with_heap].
    - rewrite length_app. cbn. lia.
    - intros l Hlt. now rewrite lookup_app_l. }
  specialize (H Hstart).
  destruct (for_each page_urls _ (batch_start env w)) as [[[] | e] w']; exact H.
Qed.

(** X5.  An entry of the cache keeps its value for the rest of the loop:
    whatever the URLs and the answers, and also when the loop ends with an
    exception, [get_display_name] only ever adds an id that was not there
    and nothing else writes to the cache. *)
Theorem cached_names_are_kept page_urls session md_file cache w k v :
  Py.dict_find k (dict_at cache w) = Some v ->
  Py.dict_find k
    (dict_at cache (snd (for_each page_urls (process_url env session md_file cache) w)))
  = Some v.
Proof.
  intros Hk.
  set (I := fun w' : world => Py.dict_find k (dict_at cache w') = Some v).
  assert (Hheap : forall w1 w2, heap w2 = heap w1 -> I w1 -> I w2).
  { intros w1 w2 Hh. unfold I, dict_at. now rewrite Hh. }
  assert (Hbody : forall url, keeps I I (process_url env session md_file cache url)).
  { intros url. apply process_url_keeps.
    - auto.
    - intros w1 w2 _ _ Hh. now apply Hheap.
    - intros page_id base_url w1 H.
      pose proof (get_page_frame env page_id base_url session w1) as (_ & Hh & _).
      destruct (get_page env page_id base_url session None w1) as [[a | e] w2];
        cbn [snd] in Hh; now apply (Hheap w1).
    - intros a base_url w1 H.
      pose proof (cache_entry_kept env a session base_url cache w1 k v H) as H'.
      destruct (get_display_name env a session base_url cache w1) as [[x | e] w2];
        exact H'.
    - intros s w1 H. cbn. now apply (Hheap w1). }
  pose proof (keeps_for_each I I page_urls _ Hbody w Hk) as H.
  destruct (for_each page_urls _ w) as [[[] | e] w']; exact H.
Qed.

End Runs.

Section Requests.

Context {lib : PyLib} (env : Env).

Lemma sent_at_most_mono session old n m w :
  (n <= m)%nat -> sent_at_most session old n w -> sent_at_most session old m w.
Proof. intros Hle (new & Hs & Hl & Ha). exists new. repeat split; auto. lia. Qed.

Lemma sent_at_most_quiet session old n w w' :
  sent w' = sent w -> sent_at_most session old n w -> sent_at_most session old n w'.
Proof. intros Hs (new & Hn & Hl & Ha). exists new. rewrite Hs. auto. Qed.

Lemma sent_at_most_snoc session old n w w' c :
  sent w' = sent w ++ [c] -> authenticated session c ->
  sent_at_most session old n w -> sent_at_most session old (S n) w'.
Proof.
  intros Hs Hc (new & Hn & Hl & Ha). exists (new ++ [c]).
  rewrite Hs, Hn, app_assoc, length_app. cbn [length]. repeat split; [lia |].
  apply Forall_app. split; [exact Ha | now constructor].
Qed.

(** A computation that sends nothing keeps the count. *)
Lemma hoare_silent {A} session old n (m : M A) :
  (n <= 2)%nat ->
  (forall w, sent (snd (m w)) = sent w) ->
  hoare (sent_at_most session old n) m
        (sent_at_most session old n) (sent_at_most session old 2).
Proof.
  intros Hn Hq w H. specialize (Hq w).
  destruct (m w) as [[a | e] w']; cbn [snd] in Hq.
  - now apply (sent_at_most_quiet _ _ _ w).
  - apply (sent_at_most_mono _ _ n); [exact Hn |]. now apply (sent_at_most_quiet _ _ _ w).
Qed.

Lemma hoare_get_page session old page_id base_url :
  hoare (sent_at_most session old 0) (get_page env page_id base_url session None)
        (sent_at_most session old 1) (sent_at_most session old 2).
Proof.
  intros w H.
  pose proof (get_page_frame env page_id base_url session w) as (_ & _ & Hs).
  assert (H1 : sent_at_most session old 1
                 (snd (get_page env page_id base_url session None w))).
  { eapply sent_at_most_snoc; [exact Hs | reflexivity | exact H]. }
  destruct (get_page env page_id base_url session None w) as [[a | e] w'];
    [exact H1 | now apply (sent_at_most_mono _ _ 1); [lia |]].
Qed.

(** The resolver sends at most one request. *)
Lemma get_display_name_sent a session base_url cache w :
  sent (snd (get_display_name env a session base_url cache w)) = sent w \/
  sent (snd (get_display_name env a session base_url cache w))
  = sent w ++ [lookup_call session base_url a
                 (net env (length (sent w)) (user_lookup session base_url a))].
Proof.
  rewrite get_display_name_eq.
  destruct (negb (Py.truthy a)); [now left |].
  destruct (Py.dict_contains a (dict_at cache w)) as [[|] | e]; try now left.
  right. cbv zeta.
  destruct (net env (length (sent w)) (user_lookup session base_url a)) as [e | r];
    [reflexivity |].
  destruct (status_code r =? 200); [| reflexivity].
  destruct (json_body r) as [body |]; [| reflexivity].
  destruct (Py.get body (u "displayName") a); reflexivity.
Qed.

Lemma hoare_get_display_name session old a base_url cache :
  hoare (sent_at_most session old 1) (get_display_name env a session base_url cache)
        (sent_at_most session old 2) (sent_at_most session old 2).
Proof.
  intros w H.
  assert (H2 : sent_at_most session old 2
                 (snd (get_display_name env a session base_url cache w))).
  { destruct (get_display_name_sent a session base_url cache w) as [Hs | Hs].
    - apply (sent_at_most_mono _ _ 1); [lia |]. now apply (sent_at_most_quiet _ _ _ w).
    - eapply sent_at_most_snoc; [exact Hs | reflexivity | exact H]. }
  destruct (get_display_name env a session base_url cache w) as [[x | e] w']; exact H2.
Qed.

(** One URL costs at most two requests, whether the body returns or raises. *)
Lemma process_url_sends session md_file cache url w :
  sent_at_most session (sent w) 2 (snd (process_url env session md_file cache url w)).
Proof.
  assert (H : hoare (sent_at_most session (sent w) 0)
                (process_url env session md_file cache url)
                (sent_at_most session (sent w) 2) (sent_at_most session (sent w) 2)).
  { unfold process_url. eapply hoare_bind.
    { apply hoare_silent; [lia |]. intros w1. apply (parse_quiet url w1). }
    intros [[base_url page_id] |].
    2:{ eapply hoare_post; [apply hoare_silent; [lia | reflexivity] |].
        intros w1. apply sent_at_most_mono. lia. }
    destruct (is_empty page_id || is_empty base_url).
    { eapply hoare_post; [apply hoare_silent; [lia | reflexivity] |].
      intros w1. apply sent_at_most_mono. lia. }
    eapply hoare_bind; [apply hoare_get_page |]. intros page.
    destruct (Py.truthy page).
    2:{ eapply hoare_post; [apply hoare_silent; [lia | reflexivity] |].
        intros w1. apply sent_at_most_mono. lia. }
    unfold extract_data_from_html.
    do 7 (eapply hoare_bind; [apply hoare_silent; [lia | reflexivity] | intros ?]).
    eapply hoare_bind; [apply hoare_get_display_name |]. intros name.
    repeat first
      [ apply hoare_silent; [lia | reflexivity]
      | eapply hoare_bind; [apply hoare_silent; [lia | reflexivity] | intros ?] ]. }
  assert (H0 : sent_at_most session (sent w) 0 w).
  { exists []. rewrite app_nil_r. repeat split; [cbn; lia | constructor]. }
  specialize (H w H0).
  destruct (process_url env session md_file cache url w) as [[[] | e] w']; exact H.
Qed.

Lemma for_each_sends session md_file cache page_urls w :
  sent_at_most session (sent w) (2 * length page_urls)
    (snd (for_each page_urls (process_url env session md_file cache) w)).
Proof.
  revert w. induction page_urls as [| url rest IH]; intros w.
  - exists []. cbn. rewrite app_nil_r. repeat split; [lia | constructor].
  - rewrite for_each_cons.
    pose proof (process_url_sends session md_file cache url w) as H1.
    destruct (process_url env session md_file cache url w) as [[[] | e] w1]; cbn [snd] in *.
    + destruct H1 as (new1 & Hs1 & Hl1 & Ha1).
      destruct (IH w1) as (new2 & Hs2 & Hl2 & Ha2).
      exists (new1 ++ new2). rewrite Hs2, Hs1, app_assoc, length_app.
      repeat split; [cbn [length]; lia | now apply Forall_app].
    + apply (sent_at_most_mono _ _ 2); [cbn [length]; lia | exact H1].
Qed.

(** X13.  A batch sends at most two requests per URL (one fetch and at
    most one user lookup; nothing is ever retried), and every request it
    sends carries the credentials of the session. *)
Theorem batch_sends_at_most_two_per_url page_urls session w :
  sent_at_most session (sent w) (2 * length page_urls)
    (snd (process_pages_from_urls env page_urls session w)).
Proof.
  rewrite process_pages_from_urls_eq.
  apply (for_each_sends session (output_path env) (length (heap w)) page_urls
           (batch_start env w)).
Qed.

(** X14.  With both credentials set, every request of a run of [main]
    carries exactly this user name and token, and the run sends at most
    two requests per non-blank line of the URL file. *)
Theorem main_requests_are_authenticated w user_name api_token lines :
  credentials env = Some (user_name, api_token) ->
  urls_txt env = FileLines lines ->
  exists new,
    sent (snd (main env w)) = sent w ++ new /\
    (length new <= 2 * length (List.filter (fun l => negb (blank l)) lines))%nat /\
    Forall (fun c => req_auth (call_request c) = Some (user_name, api_token)) new.
Proof.
  intros Hc Hf. rewrite main_eq, Hc, Hf.
  assert (Hlen : length (urls_of lines)
                 = length (List.filter (fun l => negb (blank l)) lines)).
  { unfold urls_of. apply length_map. }
  rewrite <- Hlen.
  destruct (urls_of lines) as [| url rest] eqn:Eu.
  - exists []. cbn. rewrite app_nil_r. repeat split; [lia | constructor].
  - apply (for_each_sends {| auth := Some (user_name, api_token) |} (output_path env)
             (length (heap w)) (url :: rest) (batch_start env w)).
Qed.

End Requests.

Section Blocks.

Context {lib : PyLib} (env : Env).

Lemma run_blocks_files session md_file cache page_urls w blocks :
  run_blocks env session md_file cache page_urls w blocks ->
  forall content, files w !! md_file = Some content ->
    let out := for_each page_urls (process_url env session md_file cache) w in
    fst out = Ok tt /\
    files (snd out) = <[md_file := content ++ concat blocks]> (files w).
Proof.
  induction 1 as [w | url rest w block blocks Hr _ IH | url rest w blocks Hs _ IH];
    intros content Hc; cbv zeta.
  - cbn [for_each ret fst snd concat]. rewrite app_nil_r. split; [reflexivity |].
    symmetry. now apply insert_id.
  - apply (rendered_appends env session md_file) in Hr as [R F]. cbv zeta in R, F.
    rewrite (for_each_continue _ _ _ _ R).
    rewrite Hc in F. cbn [default from_option id] in F.
    destruct (IH (content ++ block)) as [R' F'].
    { rewrite F. apply lookup_insert_eq. }
    cbv zeta in R', F'. split; [exact R' |].
    rewrite F', F, insert_insert_eq. cbn [concat]. now rewrite app_assoc.
  - assert (Hskip : fst (process_url env session md_file cache url w) = Ok tt /\
                    files (snd (process_url env session md_file cache url w)) = files w).
    { destruct Hs as [Hs | Hs].
      - apply (rejected_url_skips env session md_file cache) in Hs as (R & F & _). auto.
      - apply (failed_fetch_skips env session md_file cache) in Hs as (R & F & _). auto. }
    destruct Hskip as [R F]. rewrite (for_each_continue _ _ _ _ R).
    destruct (IH content) as [R' F']; [now rewrite F |].
    cbv zeta in R', F'. split; [exact R' |]. now rewrite F', F.
Qed.

(** X15.  For a batch of any length in which every URL is either
    formatted or skipped (rejected by the parser, or not fetched), the run
    returns normally and the output file has grown by exactly the blocks
    of the formatted URLs, in the order of the list. *)
Theorem batch_appends_blocks_in_order page_urls session w blocks :
  run_blocks env session (output_path env) (length (heap w)) page_urls
    (batch_start env w) blocks ->
  let out := process_pages_from_urls env page_urls session w in
  fst out = Ok tt /\
  files (snd out)
  = <[output_path env := default [] (files w !! output_path env) ++ concat blocks]>
      (files w).
Proof.
  intros H. cbv zeta. rewrite process_pages_from_urls_eq.
  destruct (run_blocks_files session (output_path env) (length (heap w)) page_urls
              (batch_start env w) blocks H (default [] (files w !! output_path env)))
    as [R F].
  { unfold batch_start. cbn [files with_files with_heap]. apply lookup_insert_eq. }
  cbv zeta in R, F. split; [exact R |].
  rewrite F. unfold batch_start. cbn [files with_files with_heap].
  apply insert_insert_eq.
Qed.

Lemma split_on_line l rest :
  no_newline l = true ->
  split_on 10%N (l ++ nl ++ rest) = l :: split_on 10%N rest.
Proof.
  intros H. induction l as [| c l IH].
  - reflexivity.
  - cbn [no_newline forallb] in H. apply andb_true_iff in H as [Hc Hl].
    cbn [app split_on]. apply negb_true_iff in Hc. rewrite Hc.
    unfold no_newline in IH. now rewrite (IH Hl).
Qed.

Lemma no_newline_app a b : no_newline (a ++ b) = no_newline a && no_newline b.
Proof. apply forallb_app. Qed.

Lemma split_on_labelled label field rest :
  no_newline label = true -> no_newline field = true ->
  split_on 10%N (label ++ field ++ nl ++ rest) = (label ++ field) :: split_on 10%N rest.
Proof.
  intros Hl Hf. rewrite app_assoc. apply split_on_line.
  now rewrite no_newline_app, Hl, Hf.
Qed.

(** X16.  The fields can be read back from a block: when no field text
    contains a newline, splitting the block at newlines gives the title
    line, the URL line, the space line, the author line and the update
    line, then an empty line, then the lines of the body followed by the
    closing newlines. *)
Theorem block_lines_can_be_read_back page_title page_link space author updated text :
  no_newline (py_str page_title) = true ->
  no_newline (py_str page_link) = true ->
  no_newline (py_str space) = true ->
  no_newline (py_str author) = true ->
  no_newline (py_str updated) = true ->
  split_on 10%N (markdown_content page_title page_link space author updated text)
  = [ u "# " ++ py_str page_title;
      u "URL: " ++ py_str page_link;
      u "スペース: " ++ py_str space;
      u "作成者: " ++ py_str author;
      u "最終更新日: " ++ py_str updated;
      [] ]
    ++ split_on 10%N (text ++ nl ++ nl).
Proof.
  intros H1 H2 H3 H4 H5. unfold markdown_content.
  repeat rewrite <- app_assoc.
  rewrite !split_on_labelled by (assumption || (vm_compute; reflexivity)).
  reflexivity.
Qed.

(** X17.  Runs with different timestamps write to different files. *)
Theorem output_file_names_differ t1 t2 :
  markdown_file_path t1 = markdown_file_path t2 -> t1 = t2.
Proof.
  unfold markdown_file_path. intros H.
  do 3 apply app_inv_head in H. now apply app_inv_tail in H.
Qed.

End Blocks.

Section UrlFile.

Context {lib : PyLib}.

Lemma filter_filter {A} (f : A -> bool) l : List.filter f (List.filter f l) = List.filter f l.
Proof.
  induction l as [| x l IH]; [reflexivity |]. cbn [List.filter].
  destruct (f x) eqn:Ef; [| exact IH]. cbn [List.filter]. now rewrite Ef, IH.
Qed.

(** X18.  Blank lines of the URL file do not count: two runs that differ
    only in that one reads the file with its blank lines and the other
    reads it without them do the same. *)
Theorem blank_lines_are_ignored env1 env2 lines w :
  net env1 = net env2 ->
  timestamp_now env1 = timestamp_now env2 ->
  getenv env1 = getenv env2 ->
  urls_txt env1 = FileLines lines ->
  urls_txt env2 = FileLines (List.filter (fun l => negb (blank l)) lines) ->
  main env1 w = main env2 w.
Proof.
  destruct env1 as [n1 t1 g1 f1], env2 as [n2 t2 g2 f2]. cbn [net timestamp_now getenv urls_txt].
  intros -> -> -> -> ->. rewrite !main_eq. unfold credentials. cbn [getenv urls_txt].
  destruct (g2 (u "CONFLUENCE_USER_NAME")) as [[| c user_name] |]; try reflexivity.
  destruct (g2 (u "CONFLUENCE_API_TOKEN")) as [[| d api_token] |]; try reflexivity.
  assert (E : urls_of (List.filter (fun l => negb (blank l)) lines) = urls_of lines).
  { unfold urls_of. now rewrite filter_filter. }
  rewrite E. destruct (urls_of lines); reflexivity.
Qed.

End UrlFile.

(* ===================================================================== *)
(** ** The further properties on concrete runs *)
(* ===================================================================== *)

Import Edge.

(** A 3xx answer with a JSON body is a fetched page. *)
Example redirect_with_body_is_a_page :
  fst (get_page odd (u "107") wiki session None start) = Ok bare_page.
Proof. vm_compute. reflexivity. Qed.

(** The name is served although no server can be reached and the base URL
    is another one. *)
Lemma cached_name_is_returned_witness :
  get_display_name (lib := RefLib.lib) cut_off (JStr jane)
    {| auth := None |} (u "https://other.example.org/wiki") 0 warm
  = (Ok (JStr (u "Jane Doe")), warm).
Proof.
  apply (@cached_name_is_returned RefLib.lib cut_off (JStr jane) {| auth := None |}
           (u "https://other.example.org/wiki") 0%nat warm (JStr (u "Jane Doe")));
    vm_compute; reflexivity.
Defined.

(** The user record has no [displayName]: the account id is the name, and
    it is cached. *)
Lemma answered_lookup_is_stored_witness :
  let name := default (JStr jane) (Py.assoc (u "displayName") [(u "accountId", JStr jane)]) in
  let out := get_display_name (lib := RefLib.lib) odd (JStr jane) session wiki 0 knows_bob in
  fst out = Ok name /\
  Py.dict_find (JStr jane) (dict_at 0 (snd out)) = Some name /\
  (forall k v, Py.dict_find k (dict_at 0 knows_bob) = Some v ->
               Py.dict_find k (dict_at 0 (snd out)) = Some v) /\
  (forall other_session other_base,
      get_display_name (lib := RefLib.lib) odd (JStr jane) other_session other_base 0
        (snd out)
      = (Ok name, snd out)).
Proof.
  apply (@answered_lookup_is_stored RefLib.lib odd (JStr jane) session wiki 0%nat knows_bob
           {| status_code := 200; json_body := Some nameless |}
           [(u "accountId", JStr jane)]);
    vm_compute; reflexivity.
Defined.

Lemma lookup_exceptions_escape_witness :
  let answer :=
    net cut_off (length (sent start)) (user_lookup (lib := RefLib.lib) session wiki (JStr jane)) in
  let logged :=
    with_sent start
      (sent start ++ [lookup_call (lib := RefLib.lib) session wiki (JStr jane) answer]) in
  let out := get_display_name (lib := RefLib.lib) cut_off (JStr jane) session wiki 0 start in
  (Py.hashable (JStr jane) = false -> out = (Raise TypeError, start)) /\
  (Py.dict_contains (JStr jane) (dict_at 0 start) = Ok false ->
   (forall e, answer = Failed e -> out = (Raise (RequestException e), logged)) /\
   (forall r, answer = Answered r -> status_code r = 200 -> json_body r = None ->
              out = (Raise (RequestException InvalidJSON), logged))).
Proof.
  apply (@lookup_exceptions_escape RefLib.lib cut_off (JStr jane) session wiki 0%nat start).
  vm_compute. reflexivity.
Defined.

(** The lookup of [cut_off] does raise. *)
Example cut_off_lookup_raises :
  fst (get_display_name (lib := RefLib.lib) cut_off (JStr jane) session wiki 0 start)
  = Raise (RequestException ConnectionError).
Proof. vm_compute. reflexivity. Qed.

Lemma cached_names_are_kept_witness :
  Py.dict_find (JStr (u "bob"))
    (dict_at 0 (snd (for_each [url_101; url_103]
                       (process_url (lib := RefLib.lib) friendly session out_file 0)
                       knows_bob)))
  = Some (JStr (u "Bob")).
Proof.
  apply (@cached_names_are_kept RefLib.lib friendly [url_101; url_103] session out_file 0%nat
           knows_bob).
  vm_compute. reflexivity.
Defined.

(** After that loop the cache knows both users. *)
Example cache_after_loop :
  dict_at 0 (snd (for_each [url_101; url_103]
                    (process_url (lib := RefLib.lib) friendly session out_file 0) knows_bob))
  = [(JStr (u "bob"), JStr (u "Bob")); (JStr jane, JStr (u "Jane Doe"))].
Proof. vm_compute. reflexivity. Qed.

Lemma query_shape_wins_witness :
  parse_confluence_url (lib := RefLib.lib) url_both start
  = (Ok (Some (scheme both_parsed ++ u "://" ++ netloc both_parsed ++ u "/wiki", u "5")),
     start).
Proof.
  apply (@query_shape_wins RefLib.lib url_both start both_parsed (u "5") [u "6"]).
  - vm_compute. reflexivity.
  - vm_compute. reflexivity.
  - vm_compute. reflexivity.
  - vm_compute. discriminate.
Defined.

Lemma rejected_iff_no_pages_digit_witness :
  fst (parse_confluence_url (lib := RefLib.lib) url_none start) = Ok None <->
  forall i, pages_digit_here (lib := RefLib.lib) (drop i (path none_parsed)) = false.
Proof.
  apply (@rejected_iff_no_pages_digit RefLib.lib url_none start none_parsed);
    vm_compute; reflexivity.
Defined.

Lemma empty_page_is_skipped_witness :
  process_url (lib := RefLib.lib) odd session out_file 0 url_105 start
  = (Ok tt,
     say (not_fetched_notice url_105)
       (with_sent start
          (sent start ++ [fetch_call session wiki (u "105") (answer 200 (JObj []))]))).
Proof.
  apply (@empty_page_is_skipped RefLib.lib odd session out_file 0%nat url_105 start
           wiki (u "105") {| status_code := 200; json_body := Some (JObj []) |} (JObj []));
    vm_compute; reflexivity.
Defined.

Lemma non_object_page_raises_witness :
  for_each [url_106; url_105] (process_url (lib := RefLib.lib) odd session out_file 0) start
  = (Raise AttributeError, snd (get_page odd (u "106") wiki session None start)).
Proof.
  apply (@non_object_page_raises RefLib.lib odd session out_file 0%nat url_106 start
           wiki (u "106") (JArr [JNum 1]));
    vm_compute; reflexivity.
Defined.

Lemma main_requests_are_authenticated_witness :
  exists new,
    sent (snd (main (lib := RefLib.lib) friendly start)) = sent start ++ new /\
    (length new
     <= 2 * length (List.filter (fun l => negb (blank (lib := RefLib.lib) l))
                      [url_101; url_102; url_103]))%nat /\
    Forall (fun c => req_auth (call_request c) = Some (u "bot@example.com", u "token")) new.
Proof.
  apply (@main_requests_are_authenticated RefLib.lib friendly start
           (u "bot@example.com") (u "token") [url_101; url_102; url_103]);
    vm_compute; reflexivity.
Defined.

Lemma batch_appends_blocks_in_order_witness :
  let out :=
    process_pages_from_urls (lib := RefLib.lib) friendly [url_101; url_102; url_103] session
      start in
  fst out = Ok tt /\
  files (snd out)
  = <[output_path friendly :=
        default [] (files start !! output_path friendly)
        ++ concat [ join_lines (block_lines (lib := RefLib.lib) spec_view
                                  (JStr (u "Jane Doe")) (u "<h1>Hi</h1>"));
                    join_lines (block_lines (lib := RefLib.lib) bare_view
                                  (JStr (u "Jane Doe")) []) ]]>
      (files start).
Proof.
  apply (@batch_appends_blocks_in_order RefLib.lib friendly [url_101; url_102; url_103]
           session start).
  apply blocks_rendered.
  { set (w0 := batch_start friendly start).
    set (w1 := snd (get_page friendly (u "101") wiki session None w0)).
    exists wiki, (u "101"), spec_page, w1, spec_view, (u "<h1>Hi</h1>"), (JStr (u "Jane Doe")),
      (snd (get_display_name (lib := RefLib.lib) friendly (JStr jane) session wiki 1 w1)).
    repeat split; vm_compute; reflexivity. }
  apply blocks_skipped.
  { right.
    set (w0 := snd (process_url (lib := RefLib.lib) friendly session (output_path friendly)
                      (length (heap start)) url_101 (batch_start friendly start))).
    exists wiki, (u "102"), (snd (get_page friendly (u "102") wiki session None w0)).
    split; vm_compute; reflexivity. }
  apply blocks_rendered.
  { set (w0 := snd (process_url (lib := RefLib.lib) friendly session (output_path friendly)
                      (length (heap start)) url_102
                      (snd (process_url (lib := RefLib.lib) friendly session
                              (output_path friendly) (length (heap start)) url_101
                              (batch_start friendly start))))).
    set (w1 := snd (get_page friendly (u "103") wiki session None w0)).
    exists wiki, (u "103"), bare_page, w1, bare_view, [], (JStr (u "Jane Doe")),
      (snd (get_display_name (lib := RefLib.lib) friendly (JStr jane) session wiki 1 w1)).
    repeat split; vm_compute; reflexivity. }
  apply blocks_done.
Defined.

Lemma block_lines_can_be_read_back_witness :
  split_on 10%N
    (markdown_content (lib := RefLib.lib) (JStr (u "Spec")) (JStr url_101) (JStr (u "ENG"))
       (JStr (u "Jane Doe")) (JStr (u "2 days ago")) (u "# Hi"))
  = [ u "# " ++ py_str (H := RefLib.lib) (JStr (u "Spec"));
      u "URL: " ++ py_str (H := RefLib.lib) (JStr url_101);
      u "スペース: " ++ py_str (H := RefLib.lib) (JStr (u "ENG"));
      u "作成者: " ++ py_str (H := RefLib.lib) (JStr (u "Jane Doe"));
      u "最終更新日: " ++ py_str (H := RefLib.lib) (JStr (u "2 days ago"));
      [] ]
    ++ split_on 10%N (u "# Hi" ++ nl ++ nl).
Proof.
  apply (@block_lines_can_be_read_back RefLib.lib); vm_compute; reflexivity.
Defined.

(** A title with a newline breaks the five-line layout: the title takes
    two lines. *)
Example newline_in_title :
  split_on 10%N
    (markdown_content (lib := RefLib.lib) (JStr (u "A" ++ nl ++ u "B")) (JStr (u "x"))
       (JStr (u "y")) (JStr (u "z")) (JStr (u "t")) [])
  = [ u "# A"; u "B"; u "URL: x"; u "スペース: y"; u "作成者: z"; u "最終更新日: t";
      []; []; []; [] ].
Proof. vm_compute. reflexivity. Qed.

Lemma output_file_names_differ_witness : u "20240101_090000" = u "20240101_090000".
Proof.
  apply (output_file_names_differ (u "20240101_090000") (u "20240101_090000")).
  reflexivity.
Defined.

Lemma blank_lines_are_ignored_witness :
  main (lib := RefLib.lib)
    (run_of friendly_routes (FileLines padded_lines) (Some (u "token"))) start
  = main (lib := RefLib.lib)
      (run_of friendly_routes
         (FileLines (List.filter (fun l => negb (blank (lib := RefLib.lib) l)) padded_lines))
         (Some (u "token")))
      start.
Proof.
  apply (@blank_lines_are_ignored RefLib.lib
           (run_of friendly_routes (FileLines padded_lines) (Some (u "token")))
           (run_of friendly_routes
              (FileLines (List.filter (fun l => negb (blank (lib := RefLib.lib) l))
                            padded_lines))
              (Some (u "token")))
           padded_lines start); reflexivity.
Defined.

(** The padded file gives the run of the three URLs. *)
Example padded_file_run :
  map (fun c => req_url (call_request c))
    (sent (snd (main (lib := RefLib.lib)
                  (run_of friendly_routes (FileLines padded_lines) (Some (u "token")))
                  start)))
  = [content_url (u "101"); user_url jane; content_url (u "102"); content_url (u "103")].
Proof. vm_compute. reflexivity. Qed.

(* ===================================================================== *)
(** ** A user lookup that cannot connect *)
(* ===================================================================== *)

(** [get_display_name] promises the account id when the name cannot be
    obtained, and [get_page] guards its request with [try/except]; the
    request of [get_display_name] has no such guard, so a transport error
    there leaves the function, the loop and [main]. *)

(** C6.  The code departs from the claim.  In this batch of three URLs
    the fetch of pages 1 and 3 succeeds and the fetch of page 2 fails, yet
    the run ends with the exception of the lookup for the author of page 3:
    one block has been written, not two. *)
Theorem third_author_lookup_ends_the_batch :
  let out :=
    process_pages_from_urls (lib := RefLib.lib) stranger [url_101; url_102; url_103] session
      start in
  map (fun c => page_of_answer (call_result c)) (List.filter is_fetch (sent (snd out)))
  = [spec_page; JNull; carol_page] /\
  fst out = Raise (RequestException ConnectionError) /\
  files (snd out) !! out_file
  = Some (join_lines (block_lines (lib := RefLib.lib) spec_view (JStr (u "Jane Doe"))
                        (u "<h1>Hi</h1>"))).
Proof. vm_compute. repeat split. Qed.

(** C8.  The code departs from the claim.  With valid credentials and two
    fetchable pages in the URL file, the lookup for the author of the first
    page cannot connect: [main] ends with that exception instead of
    continuing; the second URL is never fetched and no block is written. *)
Theorem lookup_transport_error_ends_the_run :
  let out := main (lib := RefLib.lib) no_user_service start in
  fst out = Raise (RequestException ConnectionError) /\
  map (fun c => req_url (call_request c)) (sent (snd out))
  = [content_url (u "103"); user_url jane] /\
  files (snd out) !! out_file = Some [].
Proof. vm_compute. repeat split. Qed.
